(** * mlx_vlm/generate.py: image loading, input preparation and the
      autoregressive generation loop

    A shallow embedding of [src/build/lib/mlx_vlm/generate.py].

    - Python values keep their shape: token ids are integers ([Z]), a
      prompt is a [string], the logits tensor of batch size one is a list
      of rows (one row of scores per position), an exception is a value
      of [exn].
    - The libraries the script calls are fields of the records [Model],
      [Processor], [ImageProcessor] and [Env] (the model, the processor,
      MLX's [random.categorical], [requests], PIL, the model hub); MLX's
      [argmax] and Python's [str] methods are written out.  What the
      script itself does with their results is written out in full.
    - Python code that can raise returns [result]; code that reads or
      changes process state (the global [MODEL_TYPE], MLX's random
      generator, what was printed, which model calls were made) runs in
      the monad [M] over [world]. *)

From Equations Require Import Equations.
From Equations.Prop Require Import Logic.
From Stdlib Require Import List String Ascii ZArith QArith Bool Arith Lia.
Import ListNotations.

Local Close Scope Q_scope.
Local Open Scope nat_scope.
Local Open Scope string_scope.

(** ** Exceptions and results *)

(** The exceptions the script can end with.  [ValueError] is the one it
    raises itself; [IndexError] comes from indexing a list or an axis out
    of range; [IOError] and [HTTPError] are what PIL and [requests]
    raise; [Raised] is any other exception of a library call.  Each
    carries its text. *)
Inductive exn : Type :=
| ValueError (msg : string)
| IndexError (msg : string)
| IOError (msg : string)
| HTTPError (msg : string)
| Raised (msg : string).

Inductive result (A : Type) : Type :=
| Ok (a : A)
| Err (e : exn).
Arguments Ok {A} a.
Arguments Err {A} e.

(** [str(e)]. *)
Definition exn_text (e : exn) : string :=
  match e with
  | ValueError msg | IndexError msg | IOError msg | HTTPError msg
  | Raised msg => msg
  end.

Definition rbind {A B : Type} (r : result A) (k : A -> result B) : result B :=
  match r with
  | Ok a => k a
  | Err e => Err e
  end.

(** [xs[i]] on a Python list, for [i >= 0]. *)
Definition getitem {A : Type} (xs : list A) (i : nat) : result A :=
  match nth_error xs i with
  | Some x => Ok x
  | None => Err (IndexError "list index out of range")
  end.

Definition raises {A : Type} (r : result A) : bool :=
  match r with
  | Ok _ => false
  | Err _ => true
  end.

(** ** Python's [str] operations used by the script *)

Module PyStr.

(** [s.startswith(p)], returning what follows [p] when it does. *)
Fixpoint strip_prefix (p s : string) : option string :=
  match p with
  | EmptyString => Some s
  | String a p' =>
      match s with
      | EmptyString => None
      | String b s' => if Ascii.eqb a b then strip_prefix p' s' else None
      end
  end.

Definition startswith (s p : string) : bool :=
  match strip_prefix p s with
  | Some _ => true
  | None => false
  end.

(** [s.startswith((p1, p2, ...))]: Python accepts a tuple of prefixes. *)
Definition startswith_any (s : string) (ps : list string) : bool :=
  existsb (startswith s) ps.

(** [s.partition(sep)] restricted to the case of a hit: the text before
    the leftmost occurrence of [sep] and the text after it. *)
Fixpoint partition (sep s : string) : option (string * string) :=
  match strip_prefix sep s with
  | Some rest => Some (EmptyString, rest)
  | None =>
      match s with
      | EmptyString => None
      | String c s' =>
          match partition sep s' with
          | Some (before, rest) => Some (String c before, rest)
          | None => None
          end
      end
  end.

Lemma strip_prefix_app (p s rest : string) :
  strip_prefix p s = Some rest -> s = p ++ rest.
Proof.
  revert s; induction p as [|a p IH]; intros s H; simpl in *.
  - congruence.
  - destruct s as [|b s]; [discriminate|].
    destruct (Ascii.eqb a b) eqn:E; [|discriminate].
    apply Ascii.eqb_eq in E; subst b. f_equal. now apply IH.
Qed.

Lemma length_append (a b : string) :
  String.length (a ++ b) = String.length a + String.length b.
Proof. induction a; simpl; congruence. Qed.

Lemma partition_app (sep s before rest : string) :
  partition sep s = Some (before, rest) -> s = before ++ sep ++ rest.
Proof.
  revert before rest; induction s as [|c s IH]; intros before rest H.
  - simpl in H. destruct (strip_prefix sep "") eqn:E; [|discriminate].
    injection H as <- <-. now apply strip_prefix_app in E.
  - cbn [partition] in H.
    destruct (strip_prefix sep (String c s)) eqn:E.
    + injection H as <- <-. now apply strip_prefix_app in E.
    + destruct (partition sep s) as [[b r]|] eqn:P; [|discriminate].
      injection H as <- <-. simpl. f_equal. now apply IH.
Qed.

Lemma partition_shorter (a : ascii) (sep s before rest : string) :
  partition (String a sep) s = Some (before, rest) ->
  String.length rest < String.length s.
Proof.
  intros H. apply partition_app in H. subst s.
  rewrite length_append. simpl. rewrite length_append. lia.
Qed.

(** [s.split(sep)] for a non-empty separator [String a sep]: cut at the
    leftmost occurrence, then go on in what follows it. *)
Equations? split_nonempty (a : ascii) (sep s : string) : list string
  by wf (String.length s) lt :=
  split_nonempty a sep s with inspect (partition (String a sep) s) := {
    | exist _ (Some (before, rest)) _ => before :: split_nonempty a sep rest
    | exist _ None _ => [s] }.
Proof. eapply partition_shorter; eauto. Qed.

(** [s.count(sep)] for a non-empty separator: the number of
    non-overlapping occurrences, scanning from the left. *)
Equations? count_nonempty (a : ascii) (sep s : string) : nat
  by wf (String.length s) lt :=
  count_nonempty a sep s with inspect (partition (String a sep) s) := {
    | exist _ (Some (before, rest)) _ => S (count_nonempty a sep rest)
    | exist _ None _ => 0 }.
Proof. eapply partition_shorter; eauto. Qed.

(** [sep.join(chunks)]. *)
Fixpoint join (sep : string) (chunks : list string) : string :=
  match chunks with
  | [] => ""
  | [c] => c
  | c :: cs => c ++ sep ++ join sep cs
  end.

(** [s.split(sep)]: Python refuses an empty separator. *)
Definition split (s sep : string) : result (list string) :=
  match sep with
  | EmptyString => Err (ValueError "empty separator")
  | String a sep' => Ok (split_nonempty a sep' s)
  end.

(** [s.count(sep)]: an empty separator is found between all characters. *)
Definition count (s sep : string) : nat :=
  match sep with
  | EmptyString => S (String.length s)
  | String a sep' => count_nonempty a sep' s
  end.

End PyStr.

(** ** Tensors and the arg-max primitive *)

(** Scores are rationals: what is proved below depends on their order only.
    A logits tensor of shape [(1, L, V)] is the list of its [L] rows. *)
Definition tensor : Type := list (list Q).

(** [logits[:, -1, :]]: the row of the last position; there is none when
    the position axis is empty. *)
Fixpoint last_position (logits : tensor) : result (list Q) :=
  match logits with
  | [] => Err (IndexError "index -1 is out of bounds for axis 1 with size 0")
  | [row] => Ok row
  | _ :: rest => last_position rest
  end.

Definition Qgtb (x y : Q) : bool := negb (Qle_bool x y).

(** The scan behind [mx.argmax(row, axis=-1)]: [best] is the position of
    the greatest score [best_val] seen so far, [i] the position of the
    head of [xs]; a later score replaces it only when strictly greater. *)
Fixpoint argmax_from (best : nat) (best_val : Q) (i : nat) (xs : list Q) : nat :=
  match xs with
  | [] => best
  | x :: xs' =>
      if Qgtb x best_val then argmax_from i x (S i) xs'
      else argmax_from best best_val (S i) xs'
  end.

(** [mx.argmax(row, axis=-1)]; an empty axis cannot be reduced. *)
Definition argmax (row : list Q) : result nat :=
  match row with
  | [] => Err (ValueError "cannot reduce an axis of size 0")
  | x :: xs => Ok (argmax_from 0 x 1 xs)
  end.

(** ** The monad of the script *)

(** A computation over process state [W] that may raise: the state
    reached is kept when it does, as Python keeps what was mutated. *)
Definition SE (W A : Type) : Type := W -> result A * W.

Definition ret {W A : Type} (a : A) : SE W A := fun w => (Ok a, w).

Definition bind {W A B : Type} (m : SE W A) (k : A -> SE W B) : SE W B :=
  fun w =>
    match m w with
    | (Ok a, w') => k a w'
    | (Err e, w') => (Err e, w')
    end.

Definition lift {W A : Type} (r : result A) : SE W A := fun w => (r, w).

Notation "x <- m ;; k" := (bind m (fun x => k))
  (at level 61, m at next level, right associativity).
Notation "' pat <- m ;; k" := (bind m (fun x => match x with pat => k end))
  (at level 61, pat pattern, m at next level, right associativity).

Section Generate.

(** What the libraries leave opaque: the model's cache, a pixel tensor,
    a decoded image, the state of MLX's random generator, the body
    stream of an HTTP response, a model configuration, a model class. *)
Context {cache pixels image key stream config model_class : Type}.

(** ** The collaborators *)

(** The model object: [model(input_ids, pixel_values)] and
    [model.language_model(y, cache=cache)].  Either call may fail. *)
Record Model : Type := {
  call : list Z -> list pixels -> result (tensor * cache);
  language_model : list Z -> cache -> result (tensor * cache)
}.

Record message : Type := { role : string; content : string }.

(** The processor object.  [dict_keys] is [processor.__dict__.keys()];
    [text_input_ids] is [processor(chunk).input_ids]; [process] is
    [processor(prompt, image, return_tensors="np")] read at its keys
    ["input_ids"] and ["pixel_values"]. *)
Record Processor : Type := {
  dict_keys : list string;
  eos_token_id : Z;
  decode : list Z -> string;
  text_input_ids : string -> list Z;
  process : string -> image -> result (list Z * list pixels);
  apply_chat_template : list message -> bool -> bool -> result string;
  tokenizer_apply_chat_template : list message -> bool -> bool -> result string
}.

(** [image_processor.preprocess([image])[0]]. *)
Record ImageProcessor : Type := {
  preprocess : image -> pixels
}.

(** A response of [requests.get]: [http_error_text] is the text of the
    [HTTPError] that [raise_for_status] builds for it. *)
Record Response : Type := {
  status_code : Z;
  http_error_text : string;
  raw : stream
}.

(** The libraries and the world outside the process:
    [mx.random.categorical(row)] gives an index and the advanced
    generator; [requests.get(url, stream=True)]; [Image.open] on a
    response body and on a path; [Path(p).is_file()]; the model hub;
    [get_model_class] of [mlx_vlm/utils.py] applied to
    [config.to_dict()]; [codecs.decode(s, "unicode_escape")]. *)
Record Env : Type := {
  categorical : key -> list Q -> nat * key;
  requests_get : string -> result Response;
  Image_open_stream : stream -> result image;
  Image_open : string -> result image;
  is_file : string -> bool;
  AutoProcessor_from_pretrained : string -> result Processor;
  AutoConfig_from_pretrained : string -> result config;
  get_model_class : config -> result (model_class * string * ImageProcessor);
  Model_from_pretrained : model_class -> string -> result Model;
  unicode_escape : string -> result string
}.

Variable env : Env.

(** ** Process state *)

(** The library calls whose order and arguments matter, as they happen,
    each with what it returned. *)
Inductive event : Type :=
| EvModel (input_ids : list Z) (pixel_values : list pixels)
          (out : tensor * cache)
| EvLanguageModel (y : list Z) (c : cache) (out : tensor * cache)
| EvArgmax (row : list Q) (index : nat)
| EvCategorical (row : list Q) (index : nat)
| EvPrint (text : string).

Record world : Type := {
  MODEL_TYPE : string;
  rng : key;
  log : list event
}.

Definition M : Type -> Type := SE world.

Definition emit (e : event) (w : world) : world :=
  {| MODEL_TYPE := MODEL_TYPE w; rng := rng w; log := log w ++ [e] |}.

Definition tell (e : event) : M unit := fun w => (Ok tt, emit e w).

Definition get_MODEL_TYPE : M string := fun w => (Ok (MODEL_TYPE w), w).

Definition set_MODEL_TYPE (t : string) : M unit :=
  fun w => (Ok tt, {| MODEL_TYPE := t; rng := rng w; log := log w |}).

(** ** load_image (lines 47-68) *)

(** [response.raise_for_status()]: an error status is 4xx or 5xx. *)
Definition raise_for_status (r : Response) : result unit :=
  if ((400 <=? status_code r) && (status_code r <? 600))%Z
  then Err (HTTPError (http_error_text r))
  else Ok tt.

Definition load_image (image_source : string) : result image :=
  if PyStr.startswith_any image_source ["http://"; "https://"] then
    match rbind (requests_get env image_source) (fun response =>
          rbind (raise_for_status response) (fun _ =>
          Image_open_stream env (raw response))) with
    | Ok img => Ok img
    | Err e =>
        Err (ValueError ("Failed to load image from URL: " ++ image_source
                         ++ " with error " ++ exn_text e))
    end
  else if is_file env image_source then
    match Image_open env image_source with
    | Ok img => Ok img
    | Err (IOError e) =>
        Err (ValueError ("Failed to load image " ++ image_source
                         ++ " with error: " ++ e))
    | Err e => Err e
    end
  else
    Err (ValueError ("The image " ++ image_source
                     ++ " must be a valid URL or existing file.")).

(** ** prepare_inputs (lines 71-85) *)

(** The [image] argument: a string still to be loaded, or an image. *)
Inductive image_arg : Type :=
| ImageStr (image_source : string)
| ImageObj (img : image).

(** Lines 72-73: a string is loaded, an image is taken as it is. *)
Definition image_of (img : image_arg) : result image :=
  match img with
  | ImageStr image_source => load_image image_source
  | ImageObj img => Ok img
  end.

(** The id that stands for the image among the token ids. *)
Definition image_token : Z := (-200)%Z.

Definition prepare_inputs (image_processor : ImageProcessor)
    (processor : Processor) (img : image_arg) (prompt : string)
  : M (list Z * list pixels) :=
  img <- lift (image_of img) ;;
  model_type <- get_MODEL_TYPE ;;
  if String.eqb model_type "nanoLlava" then
    chunks <- lift (PyStr.split prompt "<image>") ;;
    let text_chunks := map (text_input_ids processor) chunks in
    left <- lift (getitem text_chunks 0) ;;
    right <- lift (getitem text_chunks 1) ;;
    let ids := (left ++ [image_token] ++ right)%list in
    let pixel_values := [preprocess image_processor img] in
    ret (ids, pixel_values)
  else
    inputs <- lift (process processor prompt img) ;;
    let pixel_values := snd inputs in
    let ids := fst inputs in
    ret (ids, pixel_values).

(** ** load_model (lines 88-94) *)

Definition load_model (model_path : string)
  : M (Processor * Model * ImageProcessor) :=
  processor <- lift (AutoProcessor_from_pretrained env model_path) ;;
  cfg <- lift (AutoConfig_from_pretrained env model_path) ;;
  '(cls, model_type, image_processor) <- lift (get_model_class env cfg) ;;
  _ <- set_MODEL_TYPE model_type ;;
  model <- lift (Model_from_pretrained env cls model_path) ;;
  ret (processor, model, image_processor).

(** ** sample (lines 97-101) *)

Definition call_argmax (row : list Q) : M nat :=
  i <- lift (argmax row) ;;
  _ <- tell (EvArgmax row i) ;;
  ret i.

Definition call_categorical (row : list Q) : M nat :=
  fun w =>
    let '(i, k) := categorical env (rng w) row in
    (Ok i, emit (EvCategorical row i)
             {| MODEL_TYPE := MODEL_TYPE w; rng := k; log := log w |}).

Definition sample (logits : list Q) (temperature : Q) : M nat :=
  if Qeq_bool temperature 0 then call_argmax logits
  else call_categorical (map (fun x => (x * (1 / temperature))%Q) logits).

(** ** generate_text (lines 104-120) *)

Definition call_model (model : Model) (ids : list Z) (pv : list pixels)
  : M (tensor * cache) :=
  out <- lift (call model ids pv) ;;
  _ <- tell (EvModel ids pv out) ;;
  ret out.

Definition call_language_model (model : Model) (y : list Z) (c : cache)
  : M (tensor * cache) :=
  out <- lift (language_model model y c) ;;
  _ <- tell (EvLanguageModel y c out) ;;
  ret out.

(** [y.item()] and [y[None]] for the one-element array holding index [y]. *)
Definition item (y : nat) : Z := Z.of_nat y.
Definition as_batch (y : nat) : list Z := [Z.of_nat y].

(** The [for n in range(...)] loop with [n] iterations left to run. *)
Fixpoint decode_loop (model : Model) (processor : Processor) (temperature : Q)
    (n : nat) (y : nat) (c : cache) (tokens : list Z) : M (list Z) :=
  match n with
  | O => ret tokens
  | S n' =>
      ' (logits, c') <- call_language_model model (as_batch y) c ;;
      logits <- lift (last_position logits) ;;
      y' <- sample logits temperature ;;
      let token := item y' in
      if Z.eqb token (eos_token_id processor) then ret tokens
      else decode_loop model processor temperature n' y' c'
             (tokens ++ [token])%list
  end.

(** Lines 106-118: everything up to the final [processor.decode]. *)
Definition generate_tokens (ids : list Z) (pixel_values : list pixels)
    (model : Model) (processor : Processor) (max_tokens : Z) (temperature : Q)
  : M (list Z) :=
  ' (logits, c) <- call_model model ids pixel_values ;;
  logits <- lift (last_position logits) ;;
  y <- sample logits temperature ;;
  let tokens := [item y] in
  decode_loop model processor temperature (Z.to_nat (max_tokens - 1)) y c tokens.

Definition generate_text (ids : list Z) (pixel_values : list pixels)
    (model : Model) (processor : Processor) (max_tokens : Z) (temperature : Q)
  : M string :=
  tokens <- generate_tokens ids pixel_values model processor
                            max_tokens temperature ;;
  ret (decode processor tokens).

(** ** main (lines 123-149) *)

(** The parsed command line (lines 13-44). *)
Record Args : Type := {
  args_model : string;
  args_image : string;
  args_prompt : string;
  args_max_tokens : Z;
  args_temp : Q
}.

Definition default_args : Args := {|
  args_model := "qnguyen3/nanoLLaVA";
  args_image := "http://images.cocodataset.org/val2017/000000039769.jpg";
  args_prompt := "<image>" ++ String "010" "What are these?";
  args_max_tokens := 100;
  args_temp := 3 # 10
|}.

Definition has_key (processor : Processor) (k : string) : bool :=
  existsb (String.eqb k) (dict_keys processor).

(** Lines 129-142.  In the last branch the [ValueError] is built and
    dropped: line 142 has no [raise]. *)
Definition format_prompt (processor : Processor) (prompt : string)
  : result string :=
  let messages := [ {| role := "user"; content := prompt |} ] in
  if has_key processor "chat_template" then
    apply_chat_template processor messages false true
  else if has_key processor "tokenizer" then
    tokenizer_apply_chat_template processor messages false true
  else
    let _ := ValueError
      "Error: processor does not have 'chat_template' or 'tokenizer' attribute."
    in Ok prompt.

(** Lines 144-149. *)
Definition run_generation (processor : Processor) (model : Model)
    (image_processor : ImageProcessor) (args : Args) (prompt : string)
  : M unit :=
  ' (ids, pixel_values) <-
    prepare_inputs image_processor processor (ImageStr (args_image args)) prompt ;;
  generated_text <-
    generate_text ids pixel_values model processor
                  (args_max_tokens args) (args_temp args) ;;
  tell (EvPrint generated_text).

Definition main (args : Args) : M unit :=
  ' (processor, model, image_processor) <- load_model (args_model args) ;;
  prompt <- lift (unicode_escape env (args_prompt args)) ;;
  prompt <- lift (format_prompt processor prompt) ;;
  run_generation processor model image_processor args prompt.

End Generate.

Arguments Model : clear implicits.
Arguments Processor : clear implicits.
Arguments ImageProcessor : clear implicits.
Arguments Response : clear implicits.
Arguments Env : clear implicits.
Arguments event : clear implicits.
Arguments world : clear implicits.
Arguments M : clear implicits.
Arguments image_arg : clear implicits.

(** ** Reading the log *)

Section Log.

Context {cache pixels : Type}.

(** The index a sampling call returned. *)
Definition sampled_index (e : event cache pixels) : option nat :=
  match e with
  | EvArgmax _ i | EvCategorical _ i => Some i
  | _ => None
  end.

(** The tokens sampled, in order. *)
Definition sampled_tokens (l : list (event cache pixels)) : list Z :=
  flat_map (fun e => match sampled_index e with
                     | Some i => [item i]
                     | None => []
                     end) l.

Definition is_decode_call (e : event cache pixels) : bool :=
  match e with
  | EvLanguageModel _ _ _ => true
  | _ => false
  end.

Definition is_prefill_call (e : event cache pixels) : bool :=
  match e with
  | EvModel _ _ _ => true
  | _ => false
  end.

Definition decode_calls (l : list (event cache pixels)) : list (event cache pixels) :=
  filter is_decode_call l.

Definition prefill_calls (l : list (event cache pixels)) : list (event cache pixels) :=
  filter is_prefill_call l.

(** A logits tensor the loop can sample from: it has a last position,
    with at least one score. *)
Definition well_shaped (t : tensor) : Prop :=
  exists row, last_position t = Ok row /\ row <> [].

(** A model whose two calls return, with such logits. *)
Definition reliable (model : Model cache pixels) : Prop :=
  (forall ids pv, exists t c, call model ids pv = Ok (t, c) /\ well_shaped t) /\
  (forall y c, exists t c',
      language_model model y c = Ok (t, c') /\ well_shaped t).

(** The decode calls of a log, chained: each is made on the one token
    sampled last, as a sequence of length one, and on the cache the call
    before it returned, and is followed by the sampling of the next
    token.  [y] and [c] are the token and the cache the first call of
    the log must be made on. *)
Inductive threaded (model : Model cache pixels)
  : nat -> cache -> list (event cache pixels) -> Prop :=
| threaded_nil (y : nat) (c : cache) : threaded model y c []
| threaded_step (y : nat) (c : cache) (out : tensor * cache)
    (s : event cache pixels) (y' : nat) (rest : list (event cache pixels)) :
    language_model model [item y] c = Ok out ->
    sampled_index s = Some y' ->
    threaded model y' (snd out) rest ->
    threaded model y c (EvLanguageModel [item y] c out :: s :: rest).

(** [i] is the position of the greatest score of [row], the first one
    where several are greatest. *)
Definition first_max (row : list Q) (i : nat) : Prop :=
  i < List.length row /\
  (forall j, j < List.length row -> (nth j row 0 <= nth i row 0)%Q) /\
  (forall j, j < i -> (nth j row 0 < nth i row 0)%Q).

End Log.

(** ** The cases of image loading *)

Section LoadCases.

Context {cache pixels image key stream config model_class : Type}.
Variable env : Env cache pixels image key stream config model_class.

Definition is_url (image_source : string) : bool :=
  PyStr.startswith_any image_source ["http://"; "https://"].

(** The request fails, or returns an error status. *)
Definition request_fails (image_source : string) : bool :=
  raises (rbind (requests_get env image_source) raise_for_status).

(** The request succeeds, but its body does not open as an image. *)
Definition body_unreadable (image_source : string) : bool :=
  match requests_get env image_source with
  | Ok response => raises (Image_open_stream env (raw response))
  | Err _ => false
  end.

(** The path is an existing file that does not open as an image. *)
Definition file_unreadable (image_source : string) : bool :=
  is_file env image_source && raises (Image_open env image_source).

(** The three cases of failure as the specification lists them. *)
Definition listed_failure (image_source : string) : bool :=
  (is_url image_source && request_fails image_source)
  || (negb (is_url image_source) && file_unreadable image_source)
  || (negb (is_url image_source) && negb (is_file env image_source)).

(** The cases of failure of [load_image]. *)
Definition load_failure (image_source : string) : bool :=
  (is_url image_source
   && (request_fails image_source || body_unreadable image_source))
  || (negb (is_url image_source) && file_unreadable image_source)
  || (negb (is_url image_source) && negb (is_file env image_source)).

(** The image the source holds: what the response body, or the file,
    opens as. *)
Definition opened_image (image_source : string) : result image :=
  if is_url image_source then
    rbind (requests_get env image_source) (fun response =>
      Image_open_stream env (raw response))
  else Image_open env image_source.

End LoadCases.

(** ** A small concrete world *)

Module Toy.

(** Score 1 at position [i], 0 elsewhere, over [v] positions. *)
Definition one_hot (v i : nat) : list Q :=
  map (fun j => if Nat.eqb j i then 1%Q else 0%Q) (seq 0 v).

(** A model over four tokens that emits [script] one token per call,
    whatever it is fed; its cache counts the calls made so far. *)
Definition scripted (script : list nat) : Model nat nat := {|
  call := fun _ _ => Ok ([one_hot 4 (nth 0 script 0)], 1);
  language_model := fun _ c => Ok ([one_hot 4 (nth c script 0)], S c)
|}.

Definition ids_of_text (s : string) : list Z :=
  map (fun a => Z.of_nat (nat_of_ascii a)) (list_ascii_of_string s).

(** Token 3 ends a sequence; tokens 0, 1, 2, ... decode to a, b, c, ... *)
Definition processor (keys : list string) : Processor nat nat := {|
  dict_keys := keys;
  eos_token_id := 3;
  decode := fun tokens =>
    string_of_list_ascii
      (map (fun z => ascii_of_nat (97 + Z.to_nat z)) tokens);
  text_input_ids := ids_of_text;
  process := fun prompt img => Ok (ids_of_text prompt, [img]);
  apply_chat_template := fun msgs _ _ =>
    Ok (String.concat "" (map (fun m => "<" ++ role m ++ ">" ++ content m) msgs));
  tokenizer_apply_chat_template := fun msgs _ _ =>
    Ok (String.concat "" (map (fun m => "[" ++ role m ++ "]" ++ content m) msgs))
|}.

Definition image_processor : ImageProcessor nat nat := {|
  preprocess := fun img => 2 * img
|}.

(** One host that serves a picture, a text page and a missing page; one
    picture and one text file on disk. *)
Definition env (script : list nat) (keys : list string)
  : Env nat nat nat nat string string unit := {|
  categorical := fun k row => (k mod 4, S k);
  requests_get := fun url =>
    if String.eqb url "http://host/cat.png" then
      Ok {| status_code := 200; http_error_text := ""; raw := "PNG" |}
    else if String.eqb url "http://host/notes.txt" then
      Ok {| status_code := 200; http_error_text := ""; raw := "plain text" |}
    else if String.eqb url "http://host/missing.png" then
      Ok {| status_code := 404;
            http_error_text := "404 Client Error: Not Found";
            raw := "" |}
    else Err (Raised "connection refused");
  Image_open_stream := fun body =>
    if String.eqb body "PNG" then Ok 7
    else Err (IOError "cannot identify image file");
  Image_open := fun path =>
    if String.eqb path "cat.png" then Ok 8
    else Err (IOError "cannot identify image file");
  is_file := fun path =>
    String.eqb path "cat.png" || String.eqb path "notes.txt";
  AutoProcessor_from_pretrained := fun _ => Ok (processor keys);
  AutoConfig_from_pretrained := fun path => Ok path;
  get_model_class := fun _ => Ok (tt, "nanoLlava", image_processor);
  Model_from_pretrained := fun _ _ => Ok (scripted script);
  unicode_escape := fun s => Ok s
|}.

Definition start (model_type : string) : world nat nat nat :=
  {| MODEL_TYPE := model_type; rng := 0; log := [] |}.

Definition args : Args := {|
  args_model := "toy";
  args_image := "cat.png";
  args_prompt := "<image>hi";
  args_max_tokens := 5;
  args_temp := 0
|}.

End Toy.

(** * Properties *)

(** ** More ways to read the log *)

Section Runs.

Context {cache pixels : Type}.

Definition is_print (e : event cache pixels) : bool :=
  match e with
  | EvPrint _ => true
  | _ => false
  end.

Definition prints (l : list (event cache pixels)) : list (event cache pixels) :=
  filter is_print l.

(** What a model call returned. *)
Definition call_output (e : event cache pixels) : option (tensor * cache) :=
  match e with
  | EvModel _ _ out | EvLanguageModel _ _ out => Some out
  | _ => None
  end.

(** A log of greedy decoding: model calls, each followed by the taking
    of the first greatest entry in the last position of the logits that
    call returned. *)
Inductive greedy : list (event cache pixels) -> Prop :=
| greedy_nil : greedy []
| greedy_step (c : event cache pixels) (out : tensor * cache)
    (row : list Q) (i : nat) (rest : list (event cache pixels)) :
    call_output c = Some out ->
    last_position (fst out) = Ok row ->
    first_max row i ->
    greedy rest ->
    greedy (c :: EvArgmax row i :: rest).

End Runs.

(** ** More of the small concrete world *)

Module Toy2.

(** A model whose prefill returns and whose decode calls fail. *)
Definition stalling : Model nat nat := {|
  call := fun _ _ => Ok ([Toy.one_hot 4 1], 1);
  language_model := fun _ _ => Err (Raised "shape mismatch")
|}.

(** The toy world with a model hub whose weights cannot be fetched. *)
Definition env_no_weights : Env nat nat nat nat string string unit := {|
  categorical := categorical (Toy.env [] []);
  requests_get := requests_get (Toy.env [] []);
  Image_open_stream := Image_open_stream (Toy.env [] []);
  Image_open := Image_open (Toy.env [] []);
  is_file := is_file (Toy.env [] []);
  AutoProcessor_from_pretrained :=
    AutoProcessor_from_pretrained (Toy.env [] []);
  AutoConfig_from_pretrained := AutoConfig_from_pretrained (Toy.env [] []);
  get_model_class := get_model_class (Toy.env [] []);
  Model_from_pretrained := fun _ _ => Err (Raised "weights not found");
  unicode_escape := unicode_escape (Toy.env [] [])
|}.

(** The toy world on a disk where every name is a file that does not
    open as an image. *)
Definition env_all_files : Env nat nat nat nat string string unit := {|
  categorical := categorical (Toy.env [] []);
  requests_get := requests_get (Toy.env [] []);
  Image_open_stream := Image_open_stream (Toy.env [] []);
  Image_open := fun _ => Err (Raised "decompression bomb");
  is_file := fun _ => true;
  AutoProcessor_from_pretrained :=
    AutoProcessor_from_pretrained (Toy.env [] []);
  AutoConfig_from_pretrained := AutoConfig_from_pretrained (Toy.env [] []);
  get_model_class := get_model_class (Toy.env [] []);
  Model_from_pretrained := Model_from_pretrained (Toy.env [] []);
  unicode_escape := unicode_escape (Toy.env [] [])
|}.

(** The command line of [Toy.args] with an image that is on no disk. *)
Definition args_no_image : Args := {|
  args_model := "toy";
  args_image := "dog.png";
  args_prompt := "<image>hi";
  args_max_tokens := 5;
  args_temp := 0
|}.

End Toy2.

(** ** The definitions at work *)

Example split_one_marker :
  PyStr.split "a<image>b" "<image>" = Ok ["a"; "b"].
Proof. reflexivity. Qed.

Example split_marker_only :
  PyStr.split "<image>" "<image>" = Ok [""; ""].
Proof. reflexivity. Qed.

Example split_no_marker :
  PyStr.split "What are these?" "<image>" = Ok ["What are these?"].
Proof. reflexivity. Qed.

Example count_three_markers :
  PyStr.count "a<image>b<image>c<image>d" "<image>" = 3.
Proof. reflexivity. Qed.

Example argmax_tie : argmax [1; 3; 3; 2]%Q = Ok 1.
Proof. reflexivity. Qed.

Example last_position_of_three :
  last_position [[1]; [2]; [3; 4]]%Q = Ok [3; 4]%Q.
Proof. reflexivity. Qed.

Example load_image_url :
  load_image (Toy.env [] []) "http://host/cat.png" = Ok 7.
Proof. reflexivity. Qed.

Example load_image_error_status :
  load_image (Toy.env [] []) "http://host/missing.png"
  = Err (ValueError
      "Failed to load image from URL: http://host/missing.png with error 404 Client Error: Not Found").
Proof. reflexivity. Qed.

Example load_image_text_file :
  load_image (Toy.env [] []) "notes.txt"
  = Err (ValueError
      "Failed to load image notes.txt with error: cannot identify image file").
Proof. reflexivity. Qed.

Example load_image_no_file :
  load_image (Toy.env [] []) "dog.png"
  = Err (ValueError
      "The image dog.png must be a valid URL or existing file.").
Proof. reflexivity. Qed.

(** Convention A on a prompt without the marker: [text_chunks[1]] does
    not exist. *)
Example prepare_inputs_no_marker :
  fst (prepare_inputs (Toy.env [] []) Toy.image_processor (Toy.processor [])
         (ImageObj 3) "What are these?" (Toy.start "nanoLlava"))
  = Err (IndexError "list index out of range").
Proof. reflexivity. Qed.

(** The toy model emits b, c and then the end-of-sequence token. *)
Example main_prints :
  main (Toy.env [1; 2; 3; 0] []) Toy.args (Toy.start "")
  = (Ok tt,
     {| MODEL_TYPE := "nanoLlava"; rng := 0;
        log := [EvModel [(-200)%Z; 104%Z; 105%Z] [16]
                        ([Toy.one_hot 4 1], 1);
                EvArgmax (Toy.one_hot 4 1) 1;
                EvLanguageModel [1%Z] 1 ([Toy.one_hot 4 2], 2);
                EvArgmax (Toy.one_hot 4 2) 2;
                EvLanguageModel [2%Z] 2 ([Toy.one_hot 4 3], 3);
                EvArgmax (Toy.one_hot 4 3) 3;
                EvPrint "bc"] |}).
Proof. reflexivity. Qed.

(** ** Splitting and counting *)

Module PyStrFacts.
Import PyStr.

Lemma split_nonempty_hit (a : ascii) (sep s before rest : string) :
  partition (String a sep) s = Some (before, rest) ->
  split_nonempty a sep s = before :: split_nonempty a sep rest.
Proof.
  intros H. rewrite split_nonempty_equation_1.
  destruct (inspect (partition (String a sep) s)) as [[[b r]|] e].
  - rewrite split_nonempty_clause_1_equation_1.
    rewrite H in e. now injection e as <- <-.
  - congruence.
Qed.

Lemma split_nonempty_miss (a : ascii) (sep s : string) :
  partition (String a sep) s = None -> split_nonempty a sep s = [s].
Proof.
  intros H. rewrite split_nonempty_equation_1.
  destruct (inspect (partition (String a sep) s)) as [[[b r]|] e].
  - congruence.
  - now rewrite split_nonempty_clause_1_equation_2.
Qed.

Lemma count_nonempty_hit (a : ascii) (sep s before rest : string) :
  partition (String a sep) s = Some (before, rest) ->
  count_nonempty a sep s = S (count_nonempty a sep rest).
Proof.
  intros H. rewrite count_nonempty_equation_1.
  destruct (inspect (partition (String a sep) s)) as [[[b r]|] e].
  - rewrite count_nonempty_clause_1_equation_1.
    rewrite H in e. now injection e as <- <-.
  - congruence.
Qed.

Lemma count_nonempty_miss (a : ascii) (sep s : string) :
  partition (String a sep) s = None -> count_nonempty a sep s = 0.
Proof.
  intros H. rewrite count_nonempty_equation_1.
  destruct (inspect (partition (String a sep) s)) as [[[b r]|] e].
  - congruence.
  - now rewrite count_nonempty_clause_1_equation_2.
Qed.

(** Induction over the way [split] and [count] walk through a string:
    from what follows the leftmost separator back to the whole. *)
Lemma scan_ind (a : ascii) (sep : string) (P : string -> Prop) :
  (forall s, partition (String a sep) s = None -> P s) ->
  (forall s before rest,
      partition (String a sep) s = Some (before, rest) -> P rest -> P s) ->
  forall s, P s.
Proof.
  intros Hmiss Hhit s.
  remember (String.length s) as n eqn:Hn.
  revert s Hn. induction n as [n IH] using lt_wf_ind. intros s ->.
  destruct (partition (String a sep) s) as [[before rest]|] eqn:E.
  - apply (Hhit s before rest E).
    apply (IH (String.length rest)); [|reflexivity].
    eapply partition_shorter; eassumption.
  - now apply Hmiss.
Qed.

Lemma split_nonempty_not_nil (a : ascii) (sep s : string) :
  split_nonempty a sep s <> [].
Proof.
  destruct (partition (String a sep) s) as [[before rest]|] eqn:E.
  - now rewrite (split_nonempty_hit _ _ _ _ _ E).
  - now rewrite (split_nonempty_miss _ _ _ E).
Qed.

(** The chunks of [split], joined by the separator, give the string back. *)
Lemma join_split_nonempty (a : ascii) (sep s : string) :
  join (String a sep) (split_nonempty a sep s) = s.
Proof.
  induction s as [s E | s before rest E IH] using (scan_ind a sep).
  - now rewrite (split_nonempty_miss _ _ _ E).
  - rewrite (split_nonempty_hit _ _ _ _ _ E).
    pose proof (split_nonempty_not_nil a sep rest) as Hne.
    cbn [join]. destruct (split_nonempty a sep rest) as [|c cs] eqn:Hs;
      [congruence|].
    rewrite IH. symmetry. now apply partition_app.
Qed.

(** [split] returns one chunk more than [count] counts separators. *)
Lemma length_split_nonempty (a : ascii) (sep s : string) :
  List.length (split_nonempty a sep s) = S (count_nonempty a sep s).
Proof.
  induction s as [s E | s before rest E IH] using (scan_ind a sep).
  - now rewrite (split_nonempty_miss _ _ _ E), (count_nonempty_miss _ _ _ E).
  - rewrite (split_nonempty_hit _ _ _ _ _ E), (count_nonempty_hit _ _ _ _ _ E).
    simpl. now rewrite IH.
Qed.

Lemma strip_prefix_extend (p s rest t : string) :
  strip_prefix p s = Some rest -> strip_prefix p (s ++ t) = Some (rest ++ t).
Proof.
  revert s. induction p as [|a p IH]; intros s H; simpl in *.
  - congruence.
  - destruct s as [|b s]; [discriminate|]. simpl.
    destruct (Ascii.eqb a b); [now apply IH | discriminate].
Qed.

(** What [partition] leaves before the separator does not contain it. *)
Lemma partition_before_clean (a : ascii) (sep s before rest : string) :
  partition (String a sep) s = Some (before, rest) ->
  partition (String a sep) before = None.
Proof.
  revert before rest. induction s as [|c s IH]; intros before rest H.
  - discriminate.
  - cbn [partition] in H.
    destruct (strip_prefix (String a sep) (String c s)) eqn:E.
    + now injection H as <- <-.
    + destruct (partition (String a sep) s) as [[b r]|] eqn:P; [|discriminate].
      injection H as <- <-. cbn [partition]. rewrite (IH b r eq_refl).
      destruct (strip_prefix (String a sep) (String c b)) eqn:E';
        [|reflexivity].
      apply partition_app in P. subst s.
      apply strip_prefix_extend with (t := String a sep ++ r) in E'.
      cbn [append] in E, E'. congruence.
Qed.

(** A string that holds the separator once is a left part, the
    separator and a right part, neither of which holds it; [split]
    returns the two parts. *)
Lemma split_count_one (s sep : string) :
  count s sep = 1 -> sep <> "" ->
  exists left right,
    split s sep = Ok [left; right] /\ s = left ++ sep ++ right /\
    count left sep = 0 /\ count right sep = 0.
Proof.
  intros Hc Hsep. destruct sep as [|a sep]; [congruence|]. cbn in Hc |- *.
  destruct (partition (String a sep) s) as [[left right]|] eqn:E.
  - rewrite (count_nonempty_hit _ _ _ _ _ E) in Hc.
    injection Hc as Hc. exists left, right.
    rewrite (split_nonempty_hit _ _ _ _ _ E).
    assert (Hr : partition (String a sep) right = None).
    { destruct (partition (String a sep) right) as [[b r]|] eqn:E';
        [|reflexivity].
      now rewrite (count_nonempty_hit _ _ _ _ _ E') in Hc. }
    rewrite (split_nonempty_miss _ _ _ Hr).
    repeat split; auto.
    + now apply (partition_app (String a sep)).
    + apply count_nonempty_miss. eapply partition_before_clean; eassumption.
  - now rewrite (count_nonempty_miss _ _ _ E) in Hc.
Qed.

Lemma split_count_many (s sep : string) :
  2 <= count s sep -> sep <> "" ->
  exists c0 c1 c2 rest,
    split s sep = Ok (c0 :: c1 :: c2 :: rest) /\
    s = c0 ++ sep ++ c1 ++ sep ++ join sep (c2 :: rest).
Proof.
  intros Hc Hsep. destruct sep as [|a sep]; [congruence|]. cbn in Hc |- *.
  pose proof (length_split_nonempty a sep s) as Hl.
  pose proof (join_split_nonempty a sep s) as Hj.
  destruct (split_nonempty a sep s) as [|c0 [|c1 [|c2 rest]]];
    simpl in Hl; try lia.
  exists c0, c1, c2, rest. split; [reflexivity|]. now rewrite <- Hj.
Qed.

Lemma split_count_zero (s sep : string) :
  count s sep = 0 -> split s sep = Ok [s].
Proof.
  intros Hc. destruct sep as [|a sep]; [discriminate|]. cbn in Hc |- *.
  destruct (partition (String a sep) s) as [[before rest]|] eqn:E.
  - now rewrite (count_nonempty_hit _ _ _ _ _ E) in Hc.
  - now rewrite (split_nonempty_miss _ _ _ E).
Qed.

End PyStrFacts.

(** ** The arg-max scan *)

Lemma Qgtb_true (x y : Q) : Qgtb x y = true <-> (y < x)%Q.
Proof.
  unfold Qgtb. rewrite negb_true_iff, <- not_true_iff_false, Qle_bool_iff.
  split; [apply Qnot_le_lt | apply Qlt_not_le].
Qed.

Lemma Qgtb_false (x y : Q) : Qgtb x y = false <-> (x <= y)%Q.
Proof.
  unfold Qgtb. rewrite negb_false_iff. apply Qle_bool_iff.
Qed.

(** The invariant of the scan: [pre] is what was read before [xs], the
    best position so far holds the greatest score of [pre] and is the
    first to hold it. *)
Lemma argmax_from_first_max (pre xs : list Q) (best : nat) :
  pre <> [] ->
  first_max pre best ->
  first_max (pre ++ xs)
    (argmax_from best (nth best pre 0%Q) (List.length pre) xs).
Proof.
  revert pre best. induction xs as [|x xs IH]; intros pre best Hne Hmax.
  - simpl. now rewrite app_nil_r.
  - destruct Hmax as (Hlt & Hge & Hfirst).
    replace (pre ++ x :: xs)%list with ((pre ++ [x]) ++ xs)%list
      by now rewrite <- app_assoc.
    assert (Hlen : List.length (pre ++ [x]) = S (List.length pre))
      by (rewrite length_app; simpl; lia).
    assert (Hx : nth (List.length pre) (pre ++ [x]) 0%Q = x)
      by (rewrite app_nth2, Nat.sub_diag by lia; reflexivity).
    assert (Hb : nth best (pre ++ [x]) 0%Q = nth best pre 0%Q)
      by (rewrite app_nth1 by lia; reflexivity).
    cbn [argmax_from]. destruct (Qgtb x (nth best pre 0%Q)) eqn:E.
    + apply Qgtb_true in E.
      specialize (IH (pre ++ [x])%list (List.length pre)).
      rewrite Hx, Hlen in IH. apply IH; [now destruct pre|].
      unfold first_max. rewrite Hlen. repeat split.
      * lia.
      * intros j Hj. rewrite Hx.
        destruct (Nat.eq_dec j (List.length pre)) as [->|Hj'].
        -- rewrite Hx. apply Qle_refl.
        -- rewrite app_nth1 by lia. apply Qlt_le_weak.
           eapply Qle_lt_trans; [apply Hge; lia | exact E].
      * intros j Hj. rewrite Hx, app_nth1 by lia.
        eapply Qle_lt_trans; [apply Hge; lia | exact E].
    + apply Qgtb_false in E.
      specialize (IH (pre ++ [x])%list best).
      rewrite Hb, Hlen in IH. apply IH; [now destruct pre|].
      unfold first_max. rewrite Hlen. repeat split.
      * lia.
      * intros j Hj. rewrite Hb.
        destruct (Nat.eq_dec j (List.length pre)) as [->|Hj'].
        -- rewrite Hx. exact E.
        -- rewrite app_nth1 by lia. apply Hge. lia.
      * intros j Hj. rewrite Hb, app_nth1 by lia. now apply Hfirst.
Qed.

Lemma argmax_first_max (row : list Q) :
  row <> [] -> exists i, argmax row = Ok i /\ first_max row i.
Proof.
  destruct row as [|x xs]; [congruence|]. intros _.
  exists (argmax_from 0 x 1 xs). split; [reflexivity|].
  apply (argmax_from_first_max [x] xs 0); [discriminate|].
  repeat split; simpl; try lia.
  intros j Hj. replace j with 0 by lia. apply Qle_refl.
Qed.

(** ** sample *)

Section Sampling.

Context {cache pixels image key stream config model_class : Type}.
Variable env : Env cache pixels image key stream config model_class.

(** C4.  At temperature 0, [sample] on a non-empty row of logits returns
    one and the same index whatever the state of the process and of the
    random generator, which it leaves untouched; that index is the
    position of the greatest logit, the first such position when several
    logits are greatest. *)
Theorem sample_zero_temperature_first_max (row : list Q) (temperature : Q) :
  (temperature == 0)%Q ->
  row <> [] ->
  exists i,
    first_max row i /\
    forall w : world cache pixels key,
      sample env row temperature w = (Ok i, emit (EvArgmax row i) w).
Proof.
  intros Ht Hrow. destruct (argmax_first_max row Hrow) as (i & Hi & Hmax).
  exists i. split; [exact Hmax|]. intros w.
  unfold sample. apply Qeq_bool_iff in Ht. rewrite Ht.
  unfold call_argmax, bind, lift, tell, ret. now rewrite Hi.
Qed.

(** Sampling from a non-empty row returns, and logs the one index it
    drew; the model type is not touched. *)
Lemma sample_returns (row : list Q) (temperature : Q)
    (w : world cache pixels key) :
  row <> [] ->
  exists i s w',
    sample env row temperature w = (Ok i, w') /\
    log w' = (log w ++ [s])%list /\
    sampled_index s = Some i /\
    MODEL_TYPE w' = MODEL_TYPE w.
Proof.
  intros Hrow. unfold sample. destruct (Qeq_bool temperature 0).
  - destruct (argmax_first_max row Hrow) as (i & Hi & _).
    exists i, (EvArgmax row i), (emit (EvArgmax row i) w).
    unfold call_argmax, bind, lift, tell, ret. rewrite Hi. now repeat split.
  - unfold call_categorical.
    destruct (categorical env (rng w) _) as [i k] eqn:E.
    eexists i, _, _. split; [reflexivity|]. now repeat split.
Qed.

End Sampling.

Lemma sample_zero_temperature_first_max_witness :
  exists i,
    first_max [1; 3; 3; 2]%Q i /\
    forall w : world nat nat nat,
      sample (Toy.env [] []) [1; 3; 3; 2]%Q 0%Q w
      = (Ok i, emit (EvArgmax [1; 3; 3; 2]%Q i) w).
Proof.
  apply (sample_zero_temperature_first_max (Toy.env [] []) [1; 3; 3; 2]%Q 0%Q).
  - reflexivity.
  - discriminate.
Defined.

(** ** The generation loop *)

Section GenerationLoop.

Context {cache pixels image key stream config model_class : Type}.
Variable env : Env cache pixels image key stream config model_class.
Variable model : Model cache pixels.
Variable processor : Processor pixels image.
Variable temperature : Q.

Let W : Type := world cache pixels key.

(** One iteration of the loop, once its three calls are known. *)
Lemma decode_loop_step (n y : nat) (c c' : cache) (tokens : list Z)
    (t : tensor) (row : list Q) (i : nat) (w w2 : W) :
  language_model model (as_batch y) c = Ok (t, c') ->
  last_position t = Ok row ->
  sample env row temperature
         (emit (EvLanguageModel (as_batch y) c (t, c')) w) = (Ok i, w2) ->
  decode_loop env model processor temperature (S n) y c tokens w =
  if Z.eqb (item i) (eos_token_id processor) then (Ok tokens, w2)
  else decode_loop env model processor temperature n i c'
         (tokens ++ [item i])%list w2.
Proof.
  intros Hm Hl Hs. cbn [decode_loop].
  unfold bind at 1. unfold call_language_model, bind, lift, tell, ret.
  rewrite Hm, Hl, Hs. now destruct (Z.eqb _ _).
Qed.

(** What the prefill does, once its two calls are known. *)
Lemma generate_tokens_start (ids : list Z) (pv : list pixels) (max_tokens : Z)
    (t : tensor) (c : cache) (row : list Q) (i : nat) (w w1 : W) :
  call model ids pv = Ok (t, c) ->
  last_position t = Ok row ->
  sample env row temperature (emit (EvModel ids pv (t, c)) w) = (Ok i, w1) ->
  generate_tokens env ids pv model processor max_tokens temperature w =
  decode_loop env model processor temperature
    (Z.to_nat (max_tokens - 1)) i c [item i] w1.
Proof.
  intros Hm Hl Hs. unfold generate_tokens.
  unfold bind at 1. unfold call_model, bind, lift, tell, ret.
  now rewrite Hm, Hl, Hs.
Qed.

(** The loop run from any state, with a model that returns: it ends
    normally, having appended [more] to the tokens; it made chained
    decode calls and nothing else, no more of them than its budget; the
    tokens it sampled are [more], or [more] and then the end-of-sequence
    token by the very last call it made. *)
Lemma decode_loop_runs :
  reliable model ->
  forall (n y : nat) (c : cache) (tokens : list Z) (w : W),
  exists (more : list Z) (evs : list (event cache pixels)) (w' : W),
    decode_loop env model processor temperature n y c tokens w
      = (Ok (tokens ++ more)%list, w') /\
    log w' = (log w ++ evs)%list /\
    MODEL_TYPE w' = MODEL_TYPE w /\
    threaded model y c evs /\
    List.length more <= n /\
    List.length (decode_calls evs) <= n /\
    ~ In (eos_token_id processor) more /\
    ((sampled_tokens evs = more /\
      List.length (decode_calls evs) = n) \/
     (exists evs' s y',
        evs = (evs' ++ [s])%list /\ sampled_index s = Some y' /\
        item y' = eos_token_id processor /\ sampled_tokens evs' = more)).
Proof.
  intros [_ Hlm]. induction n as [|n IH]; intros y c tokens w.
  - exists [], [], w. cbn. rewrite !app_nil_r.
    repeat split; try constructor; auto. 
  - destruct (Hlm (as_batch y) c) as (t & c' & Hm & row & Hl & Hrow).
    destruct (sample_returns env row temperature
                (emit (EvLanguageModel (as_batch y) c (t, c')) w) Hrow)
      as (i & s & w2 & Hs & Hlog2 & Hidx & Hmt2).
    rewrite (decode_loop_step n y c c' tokens t row i w w2 Hm Hl Hs).
    cbn in Hlog2, Hmt2. rewrite <- app_assoc in Hlog2. cbn in Hlog2.
    assert (Hth : forall rest, threaded model i c' rest ->
              threaded model y c
                (EvLanguageModel (as_batch y) c (t, c') :: s :: rest)).
    { intros rest Hrest. now apply threaded_step with (y' := i). }
    assert (Hnd : is_decode_call s = false).
    { destruct s; cbn in Hidx |- *; congruence. }
    destruct (Z.eqb (item i) (eos_token_id processor)) eqn:E.
    + apply Z.eqb_eq in E.
      exists [], [EvLanguageModel (as_batch y) c (t, c'); s], w2.
      rewrite app_nil_r. cbn. rewrite Hnd. cbn.
      repeat split; auto; try lia.
      * apply Hth. constructor.
      * right. exists [EvLanguageModel (as_batch y) c (t, c')], s, i.
        now repeat split.
    + apply Z.eqb_neq in E.
      destruct (IH i c' (tokens ++ [item i])%list w2)
        as (more & evs & w' & Hrun & Hlog & Hmt & Hthr & Hlen & Hcalls
            & Hnot & Hend).
      exists (item i :: more),
        (EvLanguageModel (as_batch y) c (t, c') :: s :: evs), w'.
      rewrite Hrun, <- app_assoc. cbn. rewrite Hnd. cbn.
      assert (Hsi : sampled_tokens (s :: evs) = item i :: sampled_tokens evs).
      { unfold sampled_tokens. cbn. now rewrite Hidx. }
      unfold decode_calls in *.
      repeat split; auto; try lia.
      * rewrite Hlog, Hlog2, <- app_assoc. reflexivity.
      * congruence.
      * intros [Hin|Hin]; [now apply E | now apply Hnot].
      * destruct Hend as [[Hsam Hn]|(evs' & s' & y' & -> & Hs' & Hy' & Hsam)].
        -- left. split; [|lia].
           change (sampled_tokens (s :: evs) = item i :: more).
           now rewrite Hsi, Hsam.
        -- right.
           exists (EvLanguageModel (as_batch y) c (t, c') :: s :: evs'), s', y'.
           repeat split; auto.
           change (sampled_tokens (s :: evs') = item i :: more).
           unfold sampled_tokens in *. cbn. rewrite Hidx. cbn. now rewrite Hsam.
Qed.

Lemma threaded_no_prefill (y : nat) (c : cache)
    (evs : list (event cache pixels)) :
  threaded model y c evs -> prefill_calls evs = [].
Proof.
  induction 1 as [|y c out s y' rest _ Hs _ IH]; [reflexivity|].
  unfold prefill_calls in *. cbn [filter is_prefill_call].
  destruct s; cbn in Hs |- *; try discriminate; exact IH.
Qed.

(** The whole of [generate_tokens] and [generate_text] with a model that
    returns: the prefill call, the first sample, then the loop. *)
Lemma generate_runs (ids : list Z) (pv : list pixels) (max_tokens : Z) (w : W) :
  reliable model ->
  exists (out : tensor * cache) (s0 : event cache pixels) (y0 : nat)
         (more : list Z) (evs : list (event cache pixels)) (w' : W),
    call model ids pv = Ok out /\
    sampled_index s0 = Some y0 /\
    generate_tokens env ids pv model processor max_tokens temperature w
      = (Ok (item y0 :: more), w') /\
    generate_text env ids pv model processor max_tokens temperature w
      = (Ok (decode processor (item y0 :: more)), w') /\
    log w' = (log w ++ EvModel ids pv out :: s0 :: evs)%list /\
    threaded model y0 (snd out) evs /\
    List.length more <= Z.to_nat (max_tokens - 1) /\
    List.length (decode_calls evs) <= Z.to_nat (max_tokens - 1) /\
    ~ In (eos_token_id processor) more /\
    ((sampled_tokens evs = more /\
      List.length (decode_calls evs) = Z.to_nat (max_tokens - 1)) \/
     (exists evs' s y',
        evs = (evs' ++ [s])%list /\ sampled_index s = Some y' /\
        item y' = eos_token_id processor /\ sampled_tokens evs' = more)).
Proof.
  intros Hrel. destruct (proj1 Hrel ids pv) as (t & c & Hm & row & Hl & Hrow).
  destruct (sample_returns env row temperature
              (emit (EvModel ids pv (t, c)) w) Hrow)
    as (y0 & s0 & w1 & Hs & Hlog1 & Hidx & _).
  destruct (decode_loop_runs Hrel (Z.to_nat (max_tokens - 1)) y0 c [item y0] w1)
    as (more & evs & w' & Hrun & Hlog & _ & Hthr & Hlen & Hcalls & Hnot & Hend).
  pose proof (generate_tokens_start ids pv max_tokens t c row y0 w w1 Hm Hl Hs)
    as Hgen.
  cbn [app] in Hrun. rewrite Hrun in Hgen.
  exists (t, c), s0, y0, more, evs, w'.
  repeat split; auto.
  - unfold generate_text, bind, ret. now rewrite Hgen.
  - rewrite Hlog, Hlog1. cbn. now rewrite <- !app_assoc.
Qed.

(** C1.  With a positive [max_tokens] and a model that returns,
    [generate_text] returns the decoding of between 1 and [max_tokens]
    tokens; it starts with the prefill call, the only one it makes; when
    [max_tokens] is 1 it produces exactly one token and makes no decode
    call. *)
Theorem generate_text_token_count (ids : list Z) (pv : list pixels)
    (max_tokens : Z) (w : W) :
  (0 < max_tokens)%Z ->
  reliable model ->
  exists (tokens : list Z) (evs : list (event cache pixels)) (w' : W),
    generate_tokens env ids pv model processor max_tokens temperature w
      = (Ok tokens, w') /\
    generate_text env ids pv model processor max_tokens temperature w
      = (Ok (decode processor tokens), w') /\
    log w' = (log w ++ evs)%list /\
    (1 <= Z.of_nat (List.length tokens) <= max_tokens)%Z /\
    (exists out rest,
        evs = EvModel ids pv out :: rest /\ prefill_calls rest = []) /\
    (max_tokens = 1%Z ->
     List.length tokens = 1 /\ decode_calls evs = []).
Proof.
  intros Hpos Hrel.
  destruct (generate_runs ids pv max_tokens w Hrel)
    as (out & s0 & y0 & more & evs & w' & _ & Hidx & Hgen & Htext & Hlog
        & Hthr & Hlen & Hcalls & _).
  exists (item y0 :: more), (EvModel ids pv out :: s0 :: evs), w'.
  assert (Hs0 : is_prefill_call s0 = false /\ is_decode_call s0 = false).
  { destruct s0; cbn in Hidx |- *; split; congruence. }
  destruct Hs0 as [Hp0 Hd0].
  repeat split; auto.
  - cbn [List.length]. lia.
  - cbn [List.length]. lia.
  - exists out, (s0 :: evs). split; [reflexivity|].
    cbn. rewrite Hp0. now apply threaded_no_prefill with (y := y0) (c := snd out).
  - subst max_tokens. cbn in Hlen. cbn. f_equal. lia.
  - subst max_tokens. cbn in Hcalls. cbn. rewrite Hd0.
    unfold decode_calls in Hcalls.
    destruct (filter is_decode_call evs); [reflexivity | cbn in Hcalls; lia].
Qed.

(** C10.  With [max_tokens] zero or negative and a model that returns,
    [generate_text] makes the prefill call, samples one token and
    returns the decoding of that one token; it makes no decode call,
    and the one token is more than the budget allows. *)
Theorem generate_text_nonpositive_budget (ids : list Z) (pv : list pixels)
    (max_tokens : Z) (w : W) :
  (max_tokens <= 0)%Z ->
  reliable model ->
  exists (out : tensor * cache) (s0 : event cache pixels) (y0 : nat) (w' : W),
    call model ids pv = Ok out /\
    sampled_index s0 = Some y0 /\
    generate_tokens env ids pv model processor max_tokens temperature w
      = (Ok [item y0], w') /\
    generate_text env ids pv model processor max_tokens temperature w
      = (Ok (decode processor [item y0]), w') /\
    log w' = (log w ++ [EvModel ids pv out; s0])%list /\
    decode_calls [EvModel ids pv out; s0] = [] /\
    (max_tokens < Z.of_nat (List.length [item y0]))%Z.
Proof.
  intros Hneg Hrel.
  destruct (generate_runs ids pv max_tokens w Hrel)
    as (out & s0 & y0 & more & evs & w' & Hcall & Hidx & Hgen & Htext & Hlog
        & Hthr & Hlen & Hcalls & _).
  replace (Z.to_nat (max_tokens - 1)) with 0 in * by lia.
  assert (more = []) as -> by (destruct more; [reflexivity | cbn in Hlen; lia]).
  assert (evs = []) as ->.
  { destruct Hthr as [|y c o s y' rest _ _ _]; [reflexivity|].
    cbn in Hcalls. lia. }
  exists out, s0, y0, w'. repeat split; auto.
  - cbn. destruct s0; cbn in Hidx |- *; congruence.
  - cbn. lia.
Qed.

(** C3.  With a model that returns, [generate_text] returns the decoding
    of the first token and of the tokens [more] appended by the decode
    loop, none of which is the end-of-sequence token.  Either the loop
    never sampled that token, and [more] is all it sampled; or the
    sampling of that token is the last thing the run did, and [more] is
    what the loop had sampled before. *)
Theorem generate_text_stops_at_eos (ids : list Z) (pv : list pixels)
    (max_tokens : Z) (w : W) :
  reliable model ->
  exists (out : tensor * cache) (s0 : event cache pixels) (y0 : nat)
         (more : list Z) (evs : list (event cache pixels)) (w' : W),
    sampled_index s0 = Some y0 /\
    generate_tokens env ids pv model processor max_tokens temperature w
      = (Ok (item y0 :: more), w') /\
    generate_text env ids pv model processor max_tokens temperature w
      = (Ok (decode processor (item y0 :: more)), w') /\
    log w' = (log w ++ EvModel ids pv out :: s0 :: evs)%list /\
    ~ In (eos_token_id processor) more /\
    (sampled_tokens evs = more \/
     exists evs' s y',
       evs = (evs' ++ [s])%list /\ sampled_index s = Some y' /\
       item y' = eos_token_id processor /\ sampled_tokens evs' = more).
Proof.
  intros Hrel.
  destruct (generate_runs ids pv max_tokens w Hrel)
    as (out & s0 & y0 & more & evs & w' & _ & Hidx & Hgen & Htext & Hlog
        & _ & _ & _ & Hnot & Hend).
  exists out, s0, y0, more, evs, w'. repeat split; auto.
  destruct Hend as [[Hsam _]|Hstop]; [now left | now right].
Qed.

(** C5.  With a model that returns, the calls of [generate_text] are the
    prefill call, the first sample, and decode calls chained from them
    ([threaded]): each decode call is made on the one token sampled just
    before it, as a sequence of length one, and on the very cache the
    model call before it returned; the full model is never called
    again.  Every iteration makes its decode call: there are as many
    decode calls as the loop has iterations, [max_tokens - 1], unless
    the run ended by sampling the end-of-sequence token. *)
Theorem generate_text_threads_cache (ids : list Z) (pv : list pixels)
    (max_tokens : Z) (w : W) :
  reliable model ->
  exists (out : tensor * cache) (s0 : event cache pixels) (y0 : nat)
         (evs : list (event cache pixels)) (text : string) (w' : W),
    generate_text env ids pv model processor max_tokens temperature w
      = (Ok text, w') /\
    log w' = (log w ++ EvModel ids pv out :: s0 :: evs)%list /\
    call model ids pv = Ok out /\
    sampled_index s0 = Some y0 /\
    threaded model y0 (snd out) evs /\
    prefill_calls evs = [] /\
    (List.length (decode_calls evs) = Z.to_nat (max_tokens - 1) \/
     exists evs' s y',
       evs = (evs' ++ [s])%list /\ sampled_index s = Some y' /\
       item y' = eos_token_id processor).
Proof.
  intros Hrel.
  destruct (generate_runs ids pv max_tokens w Hrel)
    as (out & s0 & y0 & more & evs & w' & Hcall & Hidx & _ & Htext & Hlog
        & Hthr & _ & _ & _ & Hend).
  exists out, s0, y0, evs, (decode processor (item y0 :: more)), w'.
  split; [exact Htext|]. split; [exact Hlog|]. split; [exact Hcall|].
  split; [exact Hidx|]. split; [exact Hthr|]. split.
  - now apply threaded_no_prefill with (y := y0) (c := snd out).
  - destruct Hend as [[_ Hn]|(evs' & s & y' & Hevs & Hs & Hy' & _)].
    + now left.
    + right. now exists evs', s, y'.
Qed.

End GenerationLoop.

(** The scripted model returns, with logits over its four tokens. *)
Lemma toy_scripted_reliable (script : list nat) :
  reliable (Toy.scripted script).
Proof.
  split; intros; do 2 eexists; (split; [reflexivity|]);
    eexists; (split; [reflexivity | discriminate]).
Defined.

Lemma generate_text_token_count_witness :
  exists tokens evs w',
    generate_tokens (Toy.env [] []) [5%Z] [1] (Toy.scripted [1; 2; 0; 3])
                    (Toy.processor []) 3 0 (Toy.start "") = (Ok tokens, w') /\
    generate_text (Toy.env [] []) [5%Z] [1] (Toy.scripted [1; 2; 0; 3])
                  (Toy.processor []) 3 0 (Toy.start "")
      = (Ok (decode (Toy.processor []) tokens), w') /\
    log w' = (log (Toy.start "") ++ evs)%list /\
    (1 <= Z.of_nat (List.length tokens) <= 3)%Z /\
    (exists out rest,
        evs = EvModel [5%Z] [1] out :: rest /\ prefill_calls rest = []) /\
    (3%Z = 1%Z -> List.length tokens = 1 /\ decode_calls evs = []).
Proof.
  apply (generate_text_token_count (Toy.env [] []) (Toy.scripted [1; 2; 0; 3])
           (Toy.processor []) 0 [5%Z] [1] 3 (Toy.start "")).
  - lia.
  - apply toy_scripted_reliable.
Defined.

Lemma generate_text_nonpositive_budget_witness :
  exists out s0 y0 w',
    call (Toy.scripted [2; 1]) [5%Z] [1] = Ok out /\
    sampled_index s0 = Some y0 /\
    generate_tokens (Toy.env [] []) [5%Z] [1] (Toy.scripted [2; 1])
                    (Toy.processor []) 0 (1 # 2) (Toy.start "")
      = (Ok [item y0], w') /\
    generate_text (Toy.env [] []) [5%Z] [1] (Toy.scripted [2; 1])
                  (Toy.processor []) 0 (1 # 2) (Toy.start "")
      = (Ok (decode (Toy.processor []) [item y0]), w') /\
    log w' = (log (Toy.start "") ++ [EvModel [5%Z] [1] out; s0])%list /\
    decode_calls [EvModel [5%Z] [1] out; s0] = [] /\
    (0 < Z.of_nat (List.length [item y0]))%Z.
Proof.
  apply (generate_text_nonpositive_budget (Toy.env [] []) (Toy.scripted [2; 1])
           (Toy.processor []) (1 # 2) [5%Z] [1] 0 (Toy.start "")).
  - lia.
  - apply toy_scripted_reliable.
Defined.

Lemma generate_text_stops_at_eos_witness :
  exists out s0 y0 more evs w',
    sampled_index s0 = Some y0 /\
    generate_tokens (Toy.env [] []) [5%Z] [1] (Toy.scripted [1; 2; 3; 0])
                    (Toy.processor []) 10 0 (Toy.start "")
      = (Ok (item y0 :: more), w') /\
    generate_text (Toy.env [] []) [5%Z] [1] (Toy.scripted [1; 2; 3; 0])
                  (Toy.processor []) 10 0 (Toy.start "")
      = (Ok (decode (Toy.processor []) (item y0 :: more)), w') /\
    log w' = (log (Toy.start "") ++ EvModel [5%Z] [1] out :: s0 :: evs)%list /\
    ~ In (eos_token_id (Toy.processor [])) more /\
    (sampled_tokens evs = more \/
     exists evs' s y',
       evs = (evs' ++ [s])%list /\ sampled_index s = Some y' /\
       item y' = eos_token_id (Toy.processor []) /\
       sampled_tokens evs' = more).
Proof.
  apply (generate_text_stops_at_eos (Toy.env [] []) (Toy.scripted [1; 2; 3; 0])
           (Toy.processor []) 0 [5%Z] [1] 10 (Toy.start "")).
  apply toy_scripted_reliable.
Defined.

Lemma generate_text_threads_cache_witness :
  exists out s0 y0 evs text w',
    generate_text (Toy.env [] []) [5%Z] [1] (Toy.scripted [1; 2; 3; 0])
                  (Toy.processor []) 10 0 (Toy.start "") = (Ok text, w') /\
    log w' = (log (Toy.start "") ++ EvModel [5%Z] [1] out :: s0 :: evs)%list /\
    call (Toy.scripted [1; 2; 3; 0]) [5%Z] [1] = Ok out /\
    sampled_index s0 = Some y0 /\
    threaded (Toy.scripted [1; 2; 3; 0]) y0 (snd out) evs /\
    prefill_calls evs = [] /\
    (List.length (decode_calls evs) = Z.to_nat (10 - 1) \/
     exists evs' s y',
       evs = (evs' ++ [s])%list /\ sampled_index s = Some y' /\
       item y' = eos_token_id (Toy.processor [])).
Proof.
  apply (generate_text_threads_cache (Toy.env [] []) (Toy.scripted [1; 2; 3; 0])
           (Toy.processor []) 0 [5%Z] [1] 10 (Toy.start "")).
  apply toy_scripted_reliable.
Defined.

(** C2.  The code at a run whose prefill samples the end-of-sequence
    token (3 for the toy processor), with a budget of three tokens at
    temperature 0: the first token sampled is the end-of-sequence token,
    and still the loop is entered, two decode calls are made, the first
    of them on that token, and three tokens are returned and decoded. *)
Theorem generate_text_eos_at_prefill_runs_on :
  let run := generate_tokens (Toy.env [] []) [5%Z] [1] (Toy.scripted [3; 1; 2])
               (Toy.processor []) 3 0 (Toy.start "") in
  hd_error (sampled_tokens (log (snd run)))
    = Some (eos_token_id (Toy.processor [])) /\
  fst run = Ok [3; 1; 2]%Z /\
  decode_calls (log (snd run))
    = [EvLanguageModel [3%Z] 1 ([Toy.one_hot 4 1], 2);
       EvLanguageModel [1%Z] 2 ([Toy.one_hot 4 2], 3)] /\
  fst (generate_text (Toy.env [] []) [5%Z] [1] (Toy.scripted [3; 1; 2])
         (Toy.processor []) 3 0 (Toy.start "")) = Ok "dbc".
Proof. vm_compute. repeat split. Qed.

(** ** Image loading and input preparation *)

Section Inputs.

Context {cache pixels image key stream config model_class : Type}.
Variable env : Env cache pixels image key stream config model_class.

Let W : Type := world cache pixels key.

(** C7, as amended.  [load_image] raises exactly when the source starts
    with http:// or https:// and the request fails, returns an error
    status, or returns a body that does not open as an image; or the
    source does not start so and is an existing file that does not open
    as an image; or it does not start so and is no existing file.
    Otherwise it returns the image the source opens as. *)
Theorem load_image_raises_iff (image_source : string) :
  raises (load_image env image_source) = load_failure env image_source /\
  (load_failure env image_source = false ->
   exists img,
     load_image env image_source = Ok img /\
     opened_image env image_source = Ok img).
Proof.
  unfold load_failure, opened_image, request_fails, body_unreadable,
    file_unreadable, load_image, is_url.
  destruct (PyStr.startswith_any image_source _); cbn [andb orb negb].
  - destruct (requests_get env image_source) as [response|e]; cbn.
    + destruct (raise_for_status response) as [[]|e]; cbn.
      * destruct (Image_open_stream env (raw response)) as [img|e]; cbn.
        -- split; [reflexivity|]. intros _. now exists img.
        -- split; [reflexivity | discriminate].
      * split; [reflexivity | discriminate].
    + split; [reflexivity | discriminate].
  - destruct (is_file env image_source); cbn.
    + destruct (Image_open env image_source) as [img|e]; cbn.
      * split; [reflexivity|]. intros _. now exists img.
      * split; [now destruct e | discriminate].
    + split; [reflexivity | discriminate].
Qed.

(** Convention A once the prompt is split in at least two chunks: the
    ids are built from the first two, whatever follows them. *)
Lemma prepare_inputs_nanoLlava (image_processor : ImageProcessor pixels image)
    (processor : Processor pixels image) (img : image_arg image) (im : image)
    (prompt c0 c1 : string) (rest : list string) (w : W) :
  MODEL_TYPE w = "nanoLlava" ->
  image_of env img = Ok im ->
  PyStr.split prompt "<image>" = Ok (c0 :: c1 :: rest) ->
  prepare_inputs env image_processor processor img prompt w =
  (Ok ((text_input_ids processor c0 ++ [image_token]
        ++ text_input_ids processor c1)%list,
       [preprocess image_processor im]), w).
Proof.
  intros Hmt Him Hsplit. unfold prepare_inputs.
  unfold bind, lift, get_MODEL_TYPE, ret.
  rewrite Him, Hmt. cbn [String.eqb Ascii.eqb Bool.eqb].
  now rewrite Hsplit.
Qed.

(** C6.  Under Convention A, with the image at hand, a prompt holding
    the marker exactly once is one left segment, the marker, one right
    segment, the segments free of the marker; [prepare_inputs] returns
    the ids of the left segment, then the sentinel -200, then the ids of
    the right segment, and so [len(left_tokens) + 1 + len(right_tokens)]
    ids. *)
Theorem prepare_inputs_one_marker (image_processor : ImageProcessor pixels image)
    (processor : Processor pixels image) (img : image_arg image) (im : image)
    (prompt : string) (w : W) :
  MODEL_TYPE w = "nanoLlava" ->
  image_of env img = Ok im ->
  PyStr.count prompt "<image>" = 1 ->
  exists left right : string,
    prompt = left ++ "<image>" ++ right /\
    PyStr.count left "<image>" = 0 /\
    PyStr.count right "<image>" = 0 /\
    PyStr.split prompt "<image>" = Ok [left; right] /\
    prepare_inputs env image_processor processor img prompt w =
    (Ok ((text_input_ids processor left ++ [(-200)%Z]
          ++ text_input_ids processor right)%list,
         [preprocess image_processor im]), w) /\
    List.length (text_input_ids processor left ++ [(-200)%Z]
                 ++ text_input_ids processor right)%list
    = List.length (text_input_ids processor left) + 1
      + List.length (text_input_ids processor right).
Proof.
  intros Hmt Him Hcount.
  destruct (PyStrFacts.split_count_one prompt "<image>" Hcount)
    as (left & right & Hsplit & Hprompt & Hleft & Hright); [discriminate|].
  exists left, right. repeat split; auto.
  - now apply prepare_inputs_nanoLlava with (rest := []).
  - rewrite !length_app. cbn. lia.
Qed.

(** C9.  Under Convention A, with the image at hand, a prompt holding
    the marker twice or more is split in three chunks or more;
    [prepare_inputs] does not raise, and returns the ids of the first
    chunk, the sentinel, the ids of the second chunk: the text after the
    second marker leaves no trace in the result. *)
Theorem prepare_inputs_many_markers
    (image_processor : ImageProcessor pixels image)
    (processor : Processor pixels image) (img : image_arg image) (im : image)
    (prompt : string) (w : W) :
  MODEL_TYPE w = "nanoLlava" ->
  image_of env img = Ok im ->
  2 <= PyStr.count prompt "<image>" ->
  exists (c0 c1 c2 : string) (rest : list string),
    prompt = c0 ++ "<image>" ++ c1 ++ "<image>"
             ++ PyStr.join "<image>" (c2 :: rest) /\
    PyStr.split prompt "<image>" = Ok (c0 :: c1 :: c2 :: rest) /\
    prepare_inputs env image_processor processor img prompt w =
    (Ok ((text_input_ids processor c0 ++ [(-200)%Z]
          ++ text_input_ids processor c1)%list,
         [preprocess image_processor im]), w).
Proof.
  intros Hmt Him Hcount.
  destruct (PyStrFacts.split_count_many prompt "<image>" Hcount)
    as (c0 & c1 & c2 & rest & Hsplit & Hprompt); [discriminate|].
  exists c0, c1, c2, rest. repeat split; auto.
  now apply prepare_inputs_nanoLlava with (rest := c2 :: rest).
Qed.

(** C8.  A processor with neither [chat_template] nor [tokenizer] among
    its attributes: the formatting step raises nothing and hands the
    prompt back as it is; [main], once the model is loaded and the
    prompt unescaped, goes on to [prepare_inputs] with that very
    prompt. *)
Theorem main_without_chat_template (processor : Processor pixels image)
    (model : Model cache pixels) (image_processor : ImageProcessor pixels image)
    (args : Args) (prompt : string) (w w1 : W) :
  has_key processor "chat_template" = false ->
  has_key processor "tokenizer" = false ->
  load_model env (args_model args) w
    = (Ok (processor, model, image_processor), w1) ->
  unicode_escape env (args_prompt args) = Ok prompt ->
  format_prompt processor prompt = Ok prompt /\
  main env args w =
  (' (ids, pixel_values) <-
     prepare_inputs env image_processor processor
                    (ImageStr (args_image args)) prompt ;;
   generated_text <-
     generate_text env ids pixel_values model processor
                   (args_max_tokens args) (args_temp args) ;;
   tell (EvPrint generated_text)) w1.
Proof.
  intros Hct Htk Hload Hesc.
  assert (Hfmt : format_prompt processor prompt = Ok prompt)
    by (unfold format_prompt; now rewrite Hct, Htk).
  split; [exact Hfmt|].
  unfold main. unfold bind at 1. rewrite Hload.
  unfold bind at 1. unfold lift at 1. rewrite Hesc.
  unfold bind at 1. unfold lift at 1. rewrite Hfmt.
  reflexivity.
Qed.

End Inputs.

(** C7, as the specification states it, fails: the text page is
    served with status 200, so none of the three listed cases holds, yet
    [load_image] raises, because the body is not an image. *)
Lemma load_image_listed_failure_counterexample :
  listed_failure (Toy.env [] []) "http://host/notes.txt" = false /\
  load_image (Toy.env [] []) "http://host/notes.txt"
  = Err (ValueError
      "Failed to load image from URL: http://host/notes.txt with error cannot identify image file").
Proof. split; reflexivity. Qed.

Lemma prepare_inputs_one_marker_witness :
  exists left right : string,
    args_prompt default_args = left ++ "<image>" ++ right /\
    PyStr.count left "<image>" = 0 /\
    PyStr.count right "<image>" = 0 /\
    PyStr.split (args_prompt default_args) "<image>" = Ok [left; right] /\
    prepare_inputs (Toy.env [] []) Toy.image_processor (Toy.processor [])
                   (ImageStr "cat.png") (args_prompt default_args)
                   (Toy.start "nanoLlava") =
    (Ok ((Toy.ids_of_text left ++ [(-200)%Z] ++ Toy.ids_of_text right)%list,
         [preprocess Toy.image_processor 8]), Toy.start "nanoLlava") /\
    List.length (Toy.ids_of_text left ++ [(-200)%Z]
                 ++ Toy.ids_of_text right)%list
    = List.length (Toy.ids_of_text left) + 1
      + List.length (Toy.ids_of_text right).
Proof.
  apply (prepare_inputs_one_marker (Toy.env [] []) Toy.image_processor
           (Toy.processor []) (ImageStr "cat.png") 8
           (args_prompt default_args) (Toy.start "nanoLlava")).
  - reflexivity.
  - reflexivity.
  - vm_compute. reflexivity.
Defined.

Lemma prepare_inputs_many_markers_witness :
  exists (c0 c1 c2 : string) (rest : list string),
    "a<image>b<image>c<image>d"
    = c0 ++ "<image>" ++ c1 ++ "<image>" ++ PyStr.join "<image>" (c2 :: rest) /\
    PyStr.split "a<image>b<image>c<image>d" "<image>"
    = Ok (c0 :: c1 :: c2 :: rest) /\
    prepare_inputs (Toy.env [] []) Toy.image_processor (Toy.processor [])
                   (ImageObj 3) "a<image>b<image>c<image>d"
                   (Toy.start "nanoLlava") =
    (Ok ((Toy.ids_of_text c0 ++ [(-200)%Z] ++ Toy.ids_of_text c1)%list,
         [preprocess Toy.image_processor 3]), Toy.start "nanoLlava").
Proof.
  apply (prepare_inputs_many_markers (Toy.env [] []) Toy.image_processor
           (Toy.processor []) (ImageObj 3) 3
           "a<image>b<image>c<image>d" (Toy.start "nanoLlava")).
  - reflexivity.
  - reflexivity.
  - vm_compute. lia.
Defined.

Lemma main_without_chat_template_witness :
  format_prompt (Toy.processor []) "<image>hi" = Ok "<image>hi" /\
  main (Toy.env [1; 2; 3; 0] []) Toy.args (Toy.start "") =
  (' (ids, pixel_values) <-
     prepare_inputs (Toy.env [1; 2; 3; 0] []) Toy.image_processor
                    (Toy.processor []) (ImageStr "cat.png") "<image>hi" ;;
   generated_text <-
     generate_text (Toy.env [1; 2; 3; 0] []) ids pixel_values
                   (Toy.scripted [1; 2; 3; 0]) (Toy.processor []) 5 0 ;;
   tell (EvPrint generated_text)) (Toy.start "nanoLlava").
Proof.
  apply (main_without_chat_template (Toy.env [1; 2; 3; 0] []) (Toy.processor [])
           (Toy.scripted [1; 2; 3; 0]) Toy.image_processor Toy.args
           "<image>hi" (Toy.start "") (Toy.start "nanoLlava")).
  - reflexivity.
  - reflexivity.
  - reflexivity.
  - reflexivity.
Defined.

(** * Further properties *)

(** ** prepare_inputs *)

Section MoreInputs.

Context {cache pixels image key stream config model_class : Type}.
Variable env : Env cache pixels image key stream config model_class.

Let W : Type := world cache pixels key.

(** A prompt that holds the marker is split in two chunks at least. *)
Lemma split_with_marker (prompt : string) :
  1 <= PyStr.count prompt "<image>" ->
  exists c0 c1 rest, PyStr.split prompt "<image>" = Ok (c0 :: c1 :: rest).
Proof.
  intros Hc. cbn in Hc |- *.
  pose proof (PyStrFacts.length_split_nonempty "<" "image>" prompt) as Hl.
  destruct (PyStr.split_nonempty "<" "image>" prompt) as [|c0 [|c1 rest]];
    cbn in Hl; try lia.
  now exists c0, c1, rest.
Qed.

(** Two ways in which [prepare_inputs] is sure to raise.  An image
    string that does not load: the error of [load_image] is what
    [prepare_inputs] raises, whatever the model type and the prompt.
    Under Convention A, a prompt that does not hold the marker: the
    split gives one chunk only, and [prepare_inputs] raises, for want
    of [text_chunks[1]]. *)
Theorem prepare_inputs_sure_failures
    (image_processor : ImageProcessor pixels image)
    (processor : Processor pixels image) (img : image_arg image)
    (prompt : string) (w : W) :
  (forall e, image_of env img = Err e ->
     fst (prepare_inputs env image_processor processor img prompt w) = Err e) /\
  (MODEL_TYPE w = "nanoLlava" ->
   PyStr.count prompt "<image>" = 0 ->
   PyStr.split prompt "<image>" = Ok [prompt] /\
   raises (fst (prepare_inputs env image_processor processor img prompt w))
   = true).
Proof.
  unfold prepare_inputs, bind, lift, get_MODEL_TYPE, ret. split.
  - now intros e ->.
  - intros -> Hc. pose proof (PyStrFacts.split_count_zero _ _ Hc) as Hs.
    split; [exact Hs|].
    destruct (image_of env img) as [im|e]; [|reflexivity].
    cbn [String.eqb Ascii.eqb Bool.eqb]. now rewrite Hs.
Qed.

(** [prepare_inputs] reads [MODEL_TYPE] and changes nothing: no model
    call, no draw, no print, the generator and the model type as they
    were, whether it returns or raises. *)
Theorem prepare_inputs_keeps_world
    (image_processor : ImageProcessor pixels image)
    (processor : Processor pixels image) (img : image_arg image)
    (prompt : string) (w : W) :
  snd (prepare_inputs env image_processor processor img prompt w) = w.
Proof.
  unfold prepare_inputs, bind, lift, get_MODEL_TYPE, ret.
  destruct (image_of env img) as [im|e]; [|reflexivity].
  destruct (String.eqb (MODEL_TYPE w) "nanoLlava").
  - destruct (PyStr.split prompt "<image>") as [chunks|e]; [|reflexivity].
    destruct chunks as [|c0 [|c1 rest]]; reflexivity.
  - now destruct (process processor prompt im).
Qed.

End MoreInputs.

(** ** load_image *)

Section MoreLoading.

Context {cache pixels image key stream config model_class : Type}.

Let Environment : Type := Env cache pixels image key stream config model_class.


(** One route per source: a source that starts with http:// or https://
    is fetched and the disk is not looked at, even if a file of that
    name exists; any other source is looked up on disk and no request
    is made. *)
Theorem load_image_one_route (env1 env2 : Environment) (image_source : string) :
  (is_url image_source = true ->
   requests_get env1 image_source = requests_get env2 image_source ->
   (forall body, Image_open_stream env1 body = Image_open_stream env2 body) ->
   load_image env1 image_source = load_image env2 image_source) /\
  (is_url image_source = false ->
   is_file env1 image_source = is_file env2 image_source ->
   Image_open env1 image_source = Image_open env2 image_source ->
   load_image env1 image_source = load_image env2 image_source).
Proof.
  unfold load_image, is_url.
  destruct (PyStr.startswith_any image_source _); split; try discriminate.
  - intros _ Hget Hopen. rewrite Hget.
    destruct (requests_get env2 image_source) as [response|e]; cbn;
      [|reflexivity].
    destruct (raise_for_status response); cbn; [|reflexivity].
    now rewrite Hopen.
  - intros _ Hfile Hopen. now rewrite Hfile, Hopen.
Qed.

End MoreLoading.


(** ** More on the generation loop *)

Section MoreGeneration.

Context {cache pixels image key stream config model_class : Type}.
Variable env : Env cache pixels image key stream config model_class.
Variable model : Model cache pixels.
Variable processor : Processor pixels image.
Variable temperature : Q.

Let W : Type := world cache pixels key.

(** At temperature 0 the loop, from any state, gives a result that does
    not depend on the state it is run in, and hands the generator back
    as it found it. *)
Lemma decode_loop_greedy :
  Qeq_bool temperature 0 = true ->
  forall (n y : nat) (c : cache) (tokens : list Z) (w1 w2 : W),
    fst (decode_loop env model processor temperature n y c tokens w1)
    = fst (decode_loop env model processor temperature n y c tokens w2) /\
    rng (snd (decode_loop env model processor temperature n y c tokens w1))
    = rng w1.
Proof.
  intros Ht. induction n as [|n IH]; intros y c tokens w1 w2.
  - now split.
  - cbn [decode_loop].
    unfold bind at 1 3 5. unfold call_language_model, bind, lift, tell, ret.
    destruct (language_model model (as_batch y) c) as [[t c']|e];
      [|now split].
    destruct (last_position t) as [row|e]; [|now split].
    unfold sample. rewrite Ht. unfold call_argmax, bind, lift, tell, ret.
    destruct (argmax row) as [i|e]; [|now split].
    destruct (Z.eqb (item i) (eos_token_id processor)); [now split|].
    match goal with
    | |- fst (decode_loop _ _ _ _ _ _ _ _ ?a) = fst (decode_loop _ _ _ _ _ _ _ _ ?b) /\ _ =>
        destruct (IH i c' (tokens ++ [item i])%list a b) as [H1 H2]
    end.
    split; [exact H1 | exact H2].
Qed.

(** Greedy generation is reproducible: at temperature 0 [generate_text]
    gives the same text, or the same error, whatever the state of the
    random generator and whatever ran before, and leaves the generator
    untouched. *)
Theorem generate_text_greedy_reproducible (ids : list Z) (pv : list pixels)
    (max_tokens : Z) (w1 w2 : W) :
  (temperature == 0)%Q ->
  fst (generate_text env ids pv model processor max_tokens temperature w1)
  = fst (generate_text env ids pv model processor max_tokens temperature w2) /\
  rng (snd (generate_text env ids pv model processor max_tokens temperature w1))
  = rng w1.
Proof.
  intros Ht. apply Qeq_bool_iff in Ht.
  assert (Hgen :
    fst (generate_tokens env ids pv model processor max_tokens temperature w1)
    = fst (generate_tokens env ids pv model processor max_tokens temperature w2)
    /\ rng (snd (generate_tokens env ids pv model processor max_tokens
                   temperature w1)) = rng w1).
  { unfold generate_tokens.
    unfold bind at 1 3 5. unfold call_model, bind, lift, tell, ret.
    destruct (call model ids pv) as [[t c]|e]; [|now split].
    destruct (last_position t) as [row|e]; [|now split].
    unfold sample. rewrite Ht. unfold call_argmax, bind, lift, tell, ret.
    destruct (argmax row) as [i|e]; [|now split].
    destruct (decode_loop_greedy Ht (Z.to_nat (max_tokens - 1)) i c [item i]
                (emit (EvArgmax row i) (emit (EvModel ids pv (t, c)) w1))
                (emit (EvArgmax row i) (emit (EvModel ids pv (t, c)) w2)))
      as [H1 H2].
    split; [exact H1 | exact H2]. }
  destruct Hgen as [H1 H2]. unfold generate_text, bind, ret.
  destruct (generate_tokens env ids pv model processor max_tokens temperature w1)
    as [[toks1|e1] w1'];
  destruct (generate_tokens env ids pv model processor max_tokens temperature w2)
    as [[toks2|e2] w2']; cbn in *; split; congruence.
Qed.

(** In a chained log there is one sample per decode call. *)
Lemma threaded_calls_samples (y : nat) (c : cache)
    (evs : list (event cache pixels)) :
  threaded model y c evs ->
  List.length (decode_calls evs) = List.length (sampled_tokens evs).
Proof.
  induction 1 as [|y c out s y' rest _ Hs _ IH]; [reflexivity|].
  unfold decode_calls, sampled_tokens in *. cbn. rewrite Hs. cbn.
  destruct s; cbn in Hs |- *; try discriminate; now rewrite IH.
Qed.

Lemma sampled_tokens_app (l1 l2 : list (event cache pixels)) :
  sampled_tokens (l1 ++ l2) = (sampled_tokens l1 ++ sampled_tokens l2)%list.
Proof. unfold sampled_tokens. apply flat_map_app. Qed.

(** One model call per token.  With a model that returns, the run makes
    the prefill call and then one decode call for each further token it
    returns, plus one more when it was stopped by the end-of-sequence
    token, whose call produced no token. *)
Theorem generate_text_calls_per_token (ids : list Z) (pv : list pixels)
    (max_tokens : Z) (w : W) :
  reliable model ->
  exists (tokens : list Z) (evs : list (event cache pixels)) (w' : W),
    generate_tokens env ids pv model processor max_tokens temperature w
      = (Ok tokens, w') /\
    log w' = (log w ++ evs)%list /\
    List.length (prefill_calls evs) = 1 /\
    (List.length tokens = 1 + List.length (decode_calls evs) \/
     (List.length tokens = List.length (decode_calls evs) /\
      exists evs' s y',
        evs = (evs' ++ [s])%list /\ sampled_index s = Some y' /\
        item y' = eos_token_id processor)).
Proof.
  intros Hrel.
  destruct (generate_runs env model processor temperature ids pv max_tokens w Hrel)
    as (out & s0 & y0 & more & evs & w' & _ & Hidx & Hgen & _ & Hlog
        & Hthr & _ & _ & _ & Hend).
  exists (item y0 :: more), (EvModel ids pv out :: s0 :: evs), w'.
  pose proof (threaded_calls_samples _ _ _ Hthr) as Hcs.
  pose proof (threaded_no_prefill _ _ _ _ Hthr) as Hnp.
  assert (Hs0 : is_prefill_call s0 = false /\ is_decode_call s0 = false).
  { destruct s0; cbn in Hidx |- *; split; congruence. }
  destruct Hs0 as [Hp0 Hd0].
  split; [exact Hgen|]. split; [exact Hlog|]. split.
  - unfold prefill_calls in *. cbn. rewrite Hp0, Hnp. reflexivity.
  - unfold decode_calls in *. cbn [filter is_decode_call]. rewrite Hd0.
    destruct Hend as [[Hsam _]|(evs' & s & y' & -> & Hs & Hy' & Hsam)].
    + left. cbn. rewrite Hcs, Hsam. reflexivity.
    + right. split.
      * rewrite Hcs, sampled_tokens_app, Hsam, length_app.
        unfold sampled_tokens. cbn. rewrite Hs. cbn. lia.
      * exists (EvModel ids pv out :: s0 :: evs'), s, y'. now repeat split.
Qed.

(** The budget is given up only for the end-of-sequence token.  With a
    positive [max_tokens] and a model that returns, [generate_text]
    returns exactly [max_tokens] tokens unless the last thing it did
    was to sample the end-of-sequence token. *)
Theorem generate_text_short_only_on_eos (ids : list Z) (pv : list pixels)
    (max_tokens : Z) (w : W) :
  (0 < max_tokens)%Z ->
  reliable model ->
  exists (tokens : list Z) (evs : list (event cache pixels)) (w' : W),
    generate_tokens env ids pv model processor max_tokens temperature w
      = (Ok tokens, w') /\
    log w' = (log w ++ evs)%list /\
    (Z.of_nat (List.length tokens) = max_tokens \/
     exists evs' s y',
       evs = (evs' ++ [s])%list /\ sampled_index s = Some y' /\
       item y' = eos_token_id processor).
Proof.
  intros Hpos Hrel.
  destruct (generate_runs env model processor temperature ids pv max_tokens w Hrel)
    as (out & s0 & y0 & more & evs & w' & _ & Hidx & Hgen & _ & Hlog
        & Hthr & _ & _ & _ & Hend).
  exists (item y0 :: more), (EvModel ids pv out :: s0 :: evs), w'.
  split; [exact Hgen|]. split; [exact Hlog|].
  destruct Hend as [[Hsam Hn]|(evs' & s & y' & -> & Hs & Hy' & _)].
  - left. rewrite (threaded_calls_samples _ _ _ Hthr), Hsam in Hn.
    cbn [List.length]. lia.
  - right. exists (EvModel ids pv out :: s0 :: evs'), s, y'. now repeat split.
Qed.

End MoreGeneration.

Section SampledFromLastPosition.

Context {cache pixels image key stream config model_class : Type}.
Variable env : Env cache pixels image key stream config model_class.
Variable model : Model cache pixels.
Variable processor : Processor pixels image.
Variable temperature : Q.

Let W : Type := world cache pixels key.

Lemma sample_takes_first_max (row : list Q) (w : W) :
  Qeq_bool temperature 0 = true ->
  row <> [] ->
  exists i : nat,
    sample env row temperature w = (Ok i, emit (EvArgmax row i) w) /\
    first_max row i.
Proof.
  intros Ht Hrow. destruct (argmax_first_max row Hrow) as (i & Hi & Hmax).
  exists i. split; [|exact Hmax].
  unfold sample. rewrite Ht.
  unfold call_argmax, bind, lift, tell, ret. now rewrite Hi.
Qed.

Lemma decode_loop_greedy_log :
  Qeq_bool temperature 0 = true ->
  reliable model ->
  forall (n y : nat) (c : cache) (tokens : list Z) (w : W),
  exists evs : list (event cache pixels),
    log (snd (decode_loop env model processor temperature n y c tokens w))
    = (log w ++ evs)%list /\
    greedy evs.
Proof.
  intros Ht [_ Hlm]. induction n as [|n IH]; intros y c tokens w.
  - exists (@nil (event cache pixels)). cbn. rewrite app_nil_r.
    split; [reflexivity | apply greedy_nil].
  - destruct (Hlm (as_batch y) c) as (t & c' & Hm & row & Hl & Hrow).
    destruct (sample_takes_first_max row
                (emit (EvLanguageModel (as_batch y) c (t, c')) w) Ht Hrow)
      as (i & Hs & Hmax).
    rewrite (decode_loop_step env model processor temperature
               n y c c' tokens t row i w _ Hm Hl Hs).
    assert (Hpair : forall rest : list (event cache pixels), greedy rest ->
              greedy (EvLanguageModel (as_batch y) c (t, c')
                      :: EvArgmax row i :: rest)).
    { intros rest Hrest.
      now apply greedy_step with (out := (t, c')). }
    destruct (Z.eqb (item i) (eos_token_id processor)).
    + exists [EvLanguageModel (as_batch y) c (t, c'); EvArgmax row i].
      split; [|apply Hpair; apply greedy_nil].
      cbn. now rewrite <- app_assoc.
    + destruct (IH i c' (tokens ++ [item i])%list
                  (emit (EvArgmax row i)
                     (emit (EvLanguageModel (as_batch y) c (t, c')) w)))
        as (evs & Hlog & Hgr).
      exists (EvLanguageModel (as_batch y) c (t, c') :: EvArgmax row i :: evs).
      split; [|now apply Hpair].
      rewrite Hlog. cbn. now rewrite <- !app_assoc.
Qed.

(** Greedy decoding takes the arg-max of the last position.  At
    temperature 0, with a model that returns, the run is a sequence of
    model calls, each followed by the taking of one token: the first
    greatest entry in the last position of the logits that call
    returned, [logits[:, -1, :]]. *)
Theorem generate_text_greedy_last_position (ids : list Z) (pv : list pixels)
    (max_tokens : Z) (w : W) :
  (temperature == 0)%Q ->
  reliable model ->
  exists (text : string) (evs : list (event cache pixels)) (w' : W),
    generate_text env ids pv model processor max_tokens temperature w
      = (Ok text, w') /\
    log w' = (log w ++ evs)%list /\
    greedy evs.
Proof.
  intros Ht Hrel. apply Qeq_bool_iff in Ht.
  destruct (generate_runs env model processor temperature ids pv max_tokens w Hrel)
    as (out & s0 & y0 & more & evs & w' & _ & _ & Hgen & Htext & Hlog & _).
  destruct (proj1 Hrel ids pv) as (t & c & Hm & row & Hl & Hrow).
  destruct (sample_takes_first_max row (emit (EvModel ids pv (t, c)) w) Ht Hrow)
    as (i & Hs & Hmax).
  pose proof (generate_tokens_start env model processor temperature
                ids pv max_tokens t c row i w _ Hm Hl Hs) as Hstart.
  destruct (decode_loop_greedy_log Ht Hrel (Z.to_nat (max_tokens - 1)) i c
              [item i] (emit (EvArgmax row i) (emit (EvModel ids pv (t, c)) w)))
    as (evs1 & Hlog' & Hgr).
  rewrite <- Hstart, Hgen in Hlog'. cbn [snd] in Hlog'.
  exists (decode processor (item y0 :: more)),
    (EvModel ids pv (t, c) :: EvArgmax row i :: evs1), w'.
  split; [exact Htext|]. split.
  - rewrite Hlog'. cbn. now rewrite <- !app_assoc.
  - now apply greedy_step with (out := (t, c)).
Qed.

(** A model whose decode call fails.  When the prefill returns and the
    first decode call raises, [generate_text] with a budget of two
    tokens or more raises that error and the token already sampled is
    lost; with a budget of one token or less the decode call is never
    made and the one token is returned. *)
Theorem generate_text_decode_failure (ids : list Z) (pv : list pixels)
    (max_tokens : Z) (w : W) (t : tensor) (c : cache) (row : list Q)
    (e : exn) :
  call model ids pv = Ok (t, c) ->
  last_position t = Ok row ->
  row <> [] ->
  (forall y, language_model model y c = Err e) ->
  ((2 <= max_tokens)%Z ->
   fst (generate_text env ids pv model processor max_tokens temperature w)
   = Err e) /\
  ((max_tokens <= 1)%Z ->
   exists y0,
     fst (generate_text env ids pv model processor max_tokens temperature w)
     = Ok (decode processor [item y0])).
Proof.
  intros Hm Hl Hrow Hfail.
  destruct (sample_returns env row temperature
              (emit (EvModel ids pv (t, c)) w) Hrow)
    as (i & s & w1 & Hs & _).
  pose proof (generate_tokens_start env model processor temperature
                ids pv max_tokens t c row i w w1 Hm Hl Hs) as Hstart.
  unfold generate_text, bind, ret. rewrite Hstart. split; intros Hmax.
  - destruct (Z.to_nat (max_tokens - 1)) as [|n] eqn:En; [lia|].
    cbn [decode_loop]. unfold bind at 1.
    unfold call_language_model, bind, lift. now rewrite Hfail.
  - replace (Z.to_nat (max_tokens - 1)) with 0 by lia. now exists i.
Qed.

End SampledFromLastPosition.

Lemma generate_text_greedy_reproducible_witness :
  fst (generate_text (Toy.env [] []) [5%Z] [1] (Toy.scripted [1; 2; 3; 0])
         (Toy.processor []) 10 0 (Toy.start ""))
  = fst (generate_text (Toy.env [] []) [5%Z] [1] (Toy.scripted [1; 2; 3; 0])
           (Toy.processor []) 10 0
           {| MODEL_TYPE := "nanoLlava"; rng := 41; log := [EvPrint "before"] |})
  /\
  rng (snd (generate_text (Toy.env [] []) [5%Z] [1] (Toy.scripted [1; 2; 3; 0])
              (Toy.processor []) 10 0 (Toy.start "")))
  = rng (Toy.start "").
Proof.
  apply (generate_text_greedy_reproducible (Toy.env [] [])
           (Toy.scripted [1; 2; 3; 0]) (Toy.processor []) 0 [5%Z] [1] 10
           (Toy.start "")
           {| MODEL_TYPE := "nanoLlava"; rng := 41; log := [EvPrint "before"] |}).
  reflexivity.
Defined.

Lemma generate_text_calls_per_token_witness :
  exists tokens evs w',
    generate_tokens (Toy.env [] []) [5%Z] [1] (Toy.scripted [1; 2; 3; 0])
                    (Toy.processor []) 10 0 (Toy.start "") = (Ok tokens, w') /\
    log w' = (log (Toy.start "") ++ evs)%list /\
    List.length (prefill_calls evs) = 1 /\
    (List.length tokens = 1 + List.length (decode_calls evs) \/
     (List.length tokens = List.length (decode_calls evs) /\
      exists evs' s y',
        evs = (evs' ++ [s])%list /\ sampled_index s = Some y' /\
        item y' = eos_token_id (Toy.processor []))).
Proof.
  apply (generate_text_calls_per_token (Toy.env [] [])
           (Toy.scripted [1; 2; 3; 0]) (Toy.processor []) 0 [5%Z] [1] 10
           (Toy.start "")).
  apply toy_scripted_reliable.
Defined.

Lemma generate_text_short_only_on_eos_witness :
  exists tokens evs w',
    generate_tokens (Toy.env [] []) [5%Z] [1] (Toy.scripted [1; 2; 3; 0])
                    (Toy.processor []) 10 0 (Toy.start "") = (Ok tokens, w') /\
    log w' = (log (Toy.start "") ++ evs)%list /\
    (Z.of_nat (List.length tokens) = 10%Z \/
     exists evs' s y',
       evs = (evs' ++ [s])%list /\ sampled_index s = Some y' /\
       item y' = eos_token_id (Toy.processor [])).
Proof.
  apply (generate_text_short_only_on_eos (Toy.env [] [])
           (Toy.scripted [1; 2; 3; 0]) (Toy.processor []) 0 [5%Z] [1] 10
           (Toy.start "")).
  - lia.
  - apply toy_scripted_reliable.
Defined.

Lemma generate_text_greedy_last_position_witness :
  exists text evs w',
    generate_text (Toy.env [] []) [5%Z] [1] (Toy.scripted [1; 2; 3; 0])
                  (Toy.processor []) 10 0 (Toy.start "") = (Ok text, w') /\
    log w' = (log (Toy.start "") ++ evs)%list /\
    greedy evs.
Proof.
  apply (generate_text_greedy_last_position (Toy.env [] [])
           (Toy.scripted [1; 2; 3; 0]) (Toy.processor []) 0 [5%Z] [1] 10
           (Toy.start "")).
  - reflexivity.
  - apply toy_scripted_reliable.
Defined.

Lemma generate_text_decode_failure_witness :
  ((2 <= 5)%Z ->
   fst (generate_text (Toy.env [] []) [5%Z] [1] Toy2.stalling
          (Toy.processor []) 5 0 (Toy.start ""))
   = Err (Raised "shape mismatch")) /\
  ((5 <= 1)%Z ->
   exists y0,
     fst (generate_text (Toy.env [] []) [5%Z] [1] Toy2.stalling
            (Toy.processor []) 5 0 (Toy.start ""))
     = Ok (decode (Toy.processor []) [item y0])).
Proof.
  apply (generate_text_decode_failure (Toy.env [] []) Toy2.stalling
           (Toy.processor []) 0 [5%Z] [1] 5 (Toy.start "")
           [Toy.one_hot 4 1] 1 (Toy.one_hot 4 1) (Raised "shape mismatch")).
  - reflexivity.
  - reflexivity.
  - discriminate.
  - reflexivity.
Defined.

(** ** load_model and main *)

Section MoreMain.

Context {cache pixels image key stream config model_class : Type}.
Variable env : Env cache pixels image key stream config model_class.

Let W : Type := world cache pixels key.

(** What [load_model] does to the process.  It makes no model call,
    draws and prints nothing.  [MODEL_TYPE] is overwritten as soon as
    [get_model_class] has returned, and stays so when loading the
    weights then fails; it is left alone when one of the three calls
    before that raises. *)
Theorem load_model_world (model_path : string) (w : W) :
  log (snd (load_model env model_path w)) = log w /\
  rng (snd (load_model env model_path w)) = rng w /\
  MODEL_TYPE (snd (load_model env model_path w)) =
  match AutoProcessor_from_pretrained env model_path,
        AutoConfig_from_pretrained env model_path with
  | Ok _, Ok cfg =>
      match get_model_class env cfg with
      | Ok (_, model_type, _) => model_type
      | Err _ => MODEL_TYPE w
      end
  | _, _ => MODEL_TYPE w
  end /\
  (forall processor cfg cls model_type image_processor e,
      AutoProcessor_from_pretrained env model_path = Ok processor ->
      AutoConfig_from_pretrained env model_path = Ok cfg ->
      get_model_class env cfg = Ok (cls, model_type, image_processor) ->
      Model_from_pretrained env cls model_path = Err e ->
      load_model env model_path w
      = (Err e, {| MODEL_TYPE := model_type; rng := rng w; log := log w |})).
Proof.
  unfold load_model, bind, lift, set_MODEL_TYPE, ret.
  destruct (AutoProcessor_from_pretrained env model_path) as [p|e] eqn:Ep.
  2: { cbn. repeat split; auto. intros; congruence. }
  destruct (AutoConfig_from_pretrained env model_path) as [cfg|e] eqn:Ec.
  2: { cbn. repeat split; auto. intros; congruence. }
  destruct (get_model_class env cfg) as [[[cls t] ip]|e] eqn:Eg.
  2: { cbn. repeat split; auto. intros; congruence. }
  destruct (Model_from_pretrained env cls model_path) as [m|e] eqn:Em;
    cbn; repeat split; auto; intros; congruence.
Qed.

(** What [sample] and the loop add to the log holds no print. *)
Lemma sample_no_print (row : list Q) (temperature : Q) (w : W) :
  exists evs,
    log (snd (sample env row temperature w)) = (log w ++ evs)%list /\
    prints evs = [].
Proof.
  unfold sample. destruct (Qeq_bool temperature 0).
  - unfold call_argmax, bind, lift, tell, ret.
    destruct (argmax row) as [i|e].
    + now exists [EvArgmax row i].
    + exists []. cbn. now rewrite app_nil_r.
  - unfold call_categorical.
    destruct (categorical env (rng w) _) as [i k].
    now eexists [_].
Qed.

Lemma decode_loop_no_print (model : Model cache pixels)
    (processor : Processor pixels image) (temperature : Q) :
  forall (n y : nat) (c : cache) (tokens : list Z) (w : W),
  exists evs,
    log (snd (decode_loop env model processor temperature n y c tokens w))
    = (log w ++ evs)%list /\
    prints evs = [].
Proof.
  induction n as [|n IH]; intros y c tokens w.
  - exists []. cbn. now rewrite app_nil_r.
  - cbn [decode_loop].
    unfold bind at 1. unfold call_language_model, bind, lift, tell, ret.
    destruct (language_model model (as_batch y) c) as [[t c']|e].
    + destruct (last_position t) as [row|e].
      * destruct (sample_no_print row temperature
                    (emit (EvLanguageModel (as_batch y) c (t, c')) w))
          as (evs1 & Hlog1 & Hp1).
        destruct (sample env row temperature _) as [[i|e] w2];
          cbn [snd] in Hlog1.
        -- destruct (Z.eqb (item i) (eos_token_id processor)).
           ++ exists (EvLanguageModel (as_batch y) c (t, c') :: evs1).
              cbn [snd]. rewrite Hlog1. cbn. rewrite <- app_assoc.
              split; [reflexivity | exact Hp1].
           ++ destruct (IH i c' (tokens ++ [item i])%list w2)
                as (evs2 & Hlog2 & Hp2).
              exists (EvLanguageModel (as_batch y) c (t, c') :: evs1 ++ evs2).
              rewrite Hlog2, Hlog1. cbn. rewrite <- !app_assoc.
              split; [reflexivity|].
              unfold prints in *. cbn. now rewrite filter_app, Hp1, Hp2.
        -- exists (EvLanguageModel (as_batch y) c (t, c') :: evs1).
           cbn [snd]. rewrite Hlog1. cbn. rewrite <- app_assoc.
           split; [reflexivity | exact Hp1].
      * now exists [EvLanguageModel (as_batch y) c (t, c')].
    + exists []. cbn. now rewrite app_nil_r.
Qed.

Lemma generate_text_no_print (ids : list Z) (pv : list pixels)
    (model : Model cache pixels) (processor : Processor pixels image)
    (max_tokens : Z) (temperature : Q) (w : W) :
  exists evs,
    log (snd (generate_text env ids pv model processor max_tokens
                temperature w)) = (log w ++ evs)%list /\
    prints evs = [].
Proof.
  assert (Hgen : exists evs,
    log (snd (generate_tokens env ids pv model processor max_tokens
                temperature w)) = (log w ++ evs)%list /\ prints evs = []).
  { unfold generate_tokens.
    unfold bind at 1. unfold call_model, bind, lift, tell, ret.
    destruct (call model ids pv) as [[t c]|e].
    - destruct (last_position t) as [row|e].
      + destruct (sample_no_print row temperature
                    (emit (EvModel ids pv (t, c)) w)) as (evs1 & Hlog1 & Hp1).
        destruct (sample env row temperature _) as [[i|e] w1];
          cbn [snd] in Hlog1.
        * destruct (decode_loop_no_print model processor temperature
                      (Z.to_nat (max_tokens - 1)) i c [item i] w1)
            as (evs2 & Hlog2 & Hp2).
          exists (EvModel ids pv (t, c) :: evs1 ++ evs2).
          rewrite Hlog2, Hlog1. cbn. rewrite <- !app_assoc.
          split; [reflexivity|].
          unfold prints in *. cbn. now rewrite filter_app, Hp1, Hp2.
        * exists (EvModel ids pv (t, c) :: evs1).
          cbn [snd]. rewrite Hlog1. cbn. rewrite <- app_assoc.
          split; [reflexivity | exact Hp1].
      + now exists [EvModel ids pv (t, c)].
    - exists []. cbn. now rewrite app_nil_r. }
  destruct Hgen as (evs & Hlog & Hp). exists evs. split; [|exact Hp].
  unfold generate_text, bind, ret.
  now destruct (generate_tokens env ids pv model processor max_tokens
                  temperature w) as [[toks|e] w'].
Qed.

(** After the command line is parsed, [main] prints on success only.
    This is about lines 125-149, run on the arguments that
    [parse_arguments] returned: when they return, the last thing they
    did was to print, once; when one of them raises (loading the model,
    unescaping or formatting the prompt, preparing the inputs,
    generating), they have printed nothing.  What [parse_arguments]
    itself prints or raises at line 124 is not covered. *)
Theorem main_after_parsing_prints_on_success_only (args : Args) (w : W) :
  exists evs,
    log (snd (main env args w)) = (log w ++ evs)%list /\
    match fst (main env args w) with
    | Ok _ => exists evs' text, evs = (evs' ++ [EvPrint text])%list /\
                                prints evs' = []
    | Err _ => prints evs = []
    end.
Proof.
  destruct (main env args w) as [r w'] eqn:Hmain. cbn [fst snd].
  unfold main in Hmain. unfold bind at 1 in Hmain.
  destruct (load_model_world (args_model args) w) as (Hlog0 & _).
  destruct (load_model env (args_model args) w) as [[[[p m] ip]|e] w1];
    cbn [snd] in Hlog0.
  2: { injection Hmain as <- <-. exists []. now rewrite app_nil_r. }
  unfold bind at 1 in Hmain. unfold lift at 1 in Hmain.
  destruct (unicode_escape env (args_prompt args)) as [prompt|e].
  2: { injection Hmain as <- <-. exists []. now rewrite app_nil_r. }
  unfold bind at 1 in Hmain. unfold lift at 1 in Hmain.
  destruct (format_prompt p prompt) as [prompt'|e].
  2: { injection Hmain as <- <-. exists []. now rewrite app_nil_r. }
  unfold run_generation in Hmain. unfold bind at 1 in Hmain.
  pose proof (prepare_inputs_keeps_world env ip p (ImageStr (args_image args))
                prompt' w1) as Hkeep.
  destruct (prepare_inputs env ip p (ImageStr (args_image args)) prompt' w1)
    as [[[ids pv]|e] w2]; cbn [snd] in Hkeep; subst w2.
  2: { injection Hmain as <- <-. exists []. now rewrite app_nil_r. }
  unfold bind at 1 in Hmain.
  destruct (generate_text_no_print ids pv m p (args_max_tokens args)
              (args_temp args) w1) as (evs & Hlog & Hp).
  destruct (generate_text env ids pv m p (args_max_tokens args)
              (args_temp args) w1) as [[text|e] w3]; cbn [snd] in Hlog.
  - unfold tell in Hmain. injection Hmain as <- <-.
    exists (evs ++ [EvPrint text])%list. cbn.
    rewrite Hlog, Hlog0, <- app_assoc. split; [reflexivity|].
    now exists evs, text.
  - injection Hmain as <- <-. exists evs. rewrite Hlog, Hlog0. now split.
Qed.

(** An image that does not load stops [main] before any model call.
    Once the model is loaded and the prompt unescaped and formatted, a
    failure of [load_image] on [args.image] is what [main] raises, and
    the log is as it was: nothing was called, drawn or printed. *)
Theorem main_image_failure_before_model (args : Args)
    (processor : Processor pixels image) (model : Model cache pixels)
    (image_processor : ImageProcessor pixels image) (prompt prompt' : string)
    (e : exn) (w w1 : W) :
  load_model env (args_model args) w
    = (Ok (processor, model, image_processor), w1) ->
  unicode_escape env (args_prompt args) = Ok prompt ->
  format_prompt processor prompt = Ok prompt' ->
  load_image env (args_image args) = Err e ->
  main env args w = (Err e, w1) /\ log w1 = log w.
Proof.
  intros Hload Hesc Hfmt Himg. split.
  - unfold main. unfold bind at 1. rewrite Hload.
    unfold bind at 1. unfold lift at 1. rewrite Hesc.
    unfold bind at 1. unfold lift at 1. rewrite Hfmt.
    unfold run_generation. unfold bind at 1.
    unfold prepare_inputs. unfold bind at 1. unfold lift at 1.
    cbn [image_of]. now rewrite Himg.
  - destruct (load_model_world (args_model args) w) as (Hlog & _).
    now rewrite Hload in Hlog.
Qed.

(** [main] end to end.  Once the model is loaded, the prompt unescaped
    and formatted and the inputs prepared, with a model that returns,
    [main] returns; what it added to the log is the prefill call on the
    prepared inputs, the samples and decode calls of the run, and last
    the print of the decoding of the tokens that [generate_tokens]
    returns on those inputs. *)
Theorem main_runs (args : Args)
    (processor : Processor pixels image) (model : Model cache pixels)
    (image_processor : ImageProcessor pixels image) (prompt prompt' : string)
    (ids : list Z) (pv : list pixels) (w w1 : W) :
  load_model env (args_model args) w
    = (Ok (processor, model, image_processor), w1) ->
  unicode_escape env (args_prompt args) = Ok prompt ->
  format_prompt processor prompt = Ok prompt' ->
  fst (prepare_inputs env image_processor processor
         (ImageStr (args_image args)) prompt' w1) = Ok (ids, pv) ->
  reliable model ->
  exists (out : tensor * cache) (tokens : list Z)
         (evs : list (event cache pixels)) (w2 w' : W),
    main env args w = (Ok tt, w') /\
    generate_tokens env ids pv model processor (args_max_tokens args)
                    (args_temp args) w1 = (Ok tokens, w2) /\
    log w' = (log w ++ EvModel ids pv out :: evs
                    ++ [EvPrint (decode processor tokens)])%list /\
    prints evs = [] /\ prefill_calls evs = [].
Proof.
  intros Hload Hesc Hfmt Hprep Hrel.
  destruct (load_model_world (args_model args) w) as (Hlog0 & _).
  rewrite Hload in Hlog0. cbn [snd] in Hlog0.
  pose proof (prepare_inputs_keeps_world env image_processor processor
                (ImageStr (args_image args)) prompt' w1) as Hkeep.
  destruct (generate_runs env model processor (args_temp args) ids pv
              (args_max_tokens args) w1 Hrel)
    as (out & s0 & y0 & more & evs & w2 & _ & Hidx & Hgen & Htext & Hlog
        & Hthr & _).
  destruct (generate_text_no_print ids pv model processor
              (args_max_tokens args) (args_temp args) w1)
    as (evs0 & Hlog' & Hp).
  rewrite Htext in Hlog'. cbn [snd] in Hlog'. rewrite Hlog in Hlog'.
  apply app_inv_head in Hlog'. subst evs0.
  exists out, (item y0 :: more), (s0 :: evs), w2,
    (emit (EvPrint (decode processor (item y0 :: more))) w2).
  split; [|split; [exact Hgen|split; [|split]]].
  - unfold main. unfold bind at 1. rewrite Hload.
    unfold bind at 1. unfold lift at 1. rewrite Hesc.
    unfold bind at 1. unfold lift at 1. rewrite Hfmt.
    unfold run_generation. unfold bind at 1.
    destruct (prepare_inputs env image_processor processor
                (ImageStr (args_image args)) prompt' w1) as [r w1'].
    cbn in Hprep, Hkeep. subst r w1'.
    unfold bind at 1. now rewrite Htext.
  - cbn. rewrite Hlog, Hlog0, <- app_assoc. reflexivity.
  - unfold prints in *. cbn in Hp. exact Hp.
  - unfold prefill_calls. cbn.
    assert (Hp0 : is_prefill_call s0 = false)
      by (destruct s0; cbn in Hidx |- *; congruence).
    rewrite Hp0.
    now apply (threaded_no_prefill model y0 (snd out)).
Qed.

End MoreMain.

Lemma main_image_failure_before_model_witness :
  main (Toy.env [1; 2; 3; 0] []) Toy2.args_no_image (Toy.start "")
  = (Err (ValueError
       "The image dog.png must be a valid URL or existing file."),
     Toy.start "nanoLlava") /\
  log (Toy.start "nanoLlava") = log (Toy.start "").
Proof.
  apply (main_image_failure_before_model (Toy.env [1; 2; 3; 0] [])
           Toy2.args_no_image (Toy.processor []) (Toy.scripted [1; 2; 3; 0])
           Toy.image_processor "<image>hi" "<image>hi"
           (ValueError "The image dog.png must be a valid URL or existing file.")
           (Toy.start "") (Toy.start "nanoLlava")).
  - reflexivity.
  - reflexivity.
  - reflexivity.
  - reflexivity.
Defined.

Lemma main_runs_witness :
  exists out tokens evs w2 w',
    main (Toy.env [1; 2; 3; 0] ["chat_template"]) Toy.args (Toy.start "")
    = (Ok tt, w') /\
    generate_tokens (Toy.env [1; 2; 3; 0] ["chat_template"])
                    (Toy.ids_of_text "<user>" ++ [(-200)%Z]
                     ++ Toy.ids_of_text "hi")%list [16]
                    (Toy.scripted [1; 2; 3; 0]) (Toy.processor ["chat_template"])
                    5 0 (Toy.start "nanoLlava") = (Ok tokens, w2) /\
    log w' = (log (Toy.start "")
              ++ EvModel (Toy.ids_of_text "<user>" ++ [(-200)%Z]
                          ++ Toy.ids_of_text "hi")%list [16] out
              :: evs
              ++ [EvPrint (decode (Toy.processor ["chat_template"]) tokens)])%list /\
    prints evs = [] /\ prefill_calls evs = [].
Proof.
  apply (main_runs (Toy.env [1; 2; 3; 0] ["chat_template"]) Toy.args
           (Toy.processor ["chat_template"]) (Toy.scripted [1; 2; 3; 0])
           Toy.image_processor "<image>hi" "<user><image>hi"
           (Toy.ids_of_text "<user>" ++ [(-200)%Z] ++ Toy.ids_of_text "hi")%list
           [16] (Toy.start "") (Toy.start "nanoLlava")).
  - reflexivity.
  - reflexivity.
  - reflexivity.
  - reflexivity.
  - apply toy_scripted_reliable.
Defined.

(** The weights are missing: [load_model] raises, and [MODEL_TYPE] has
    been set all the same. *)
Example load_model_weights_missing :
  load_model Toy2.env_no_weights "toy" (Toy.start "")
  = (Err (Raised "weights not found"), Toy.start "nanoLlava").
Proof. reflexivity. Qed.

(** A URL is fetched even where a file of that name exists. *)
Example load_image_url_over_file :
  is_file Toy2.env_all_files "http://host/cat.png" = true /\
  load_image Toy2.env_all_files "http://host/cat.png" = Ok 7.
Proof. split; reflexivity. Qed.

(** An error of [Image.open] that is no [IOError] is not wrapped. *)
Example load_image_other_error :
  load_image Toy2.env_all_files "notes.txt"
  = Err (Raised "decompression bomb").
Proof. reflexivity. Qed.
